(** * Pizza Home backend: a shallow embedding of [pizza_home_backend.py]

    The development follows the source file top to bottom: the Python string
    primitives the code relies on, the part of [difflib] behind
    [get_close_matches], the menu and zone resolvers, the SQLite [orders]
    table, the in-memory session store and the Flask endpoints
    [whatsapp_webhook], [http_create_order], [upload_screenshot],
    [verify_order] and [payment_webhook].  Effects (the [sessions] dict, the
    database, outbound WhatsApp messages, spawned rider threads, raised
    exceptions) are threaded through an explicit state-and-exception monad.

    Not modelled: the file system (menu and zone files, saved uploads), the
    admin endpoints that replace the menu and the zone table, and
    [/rider/notify]. *)

From Stdlib Require Import ZArith String Ascii List Bool Lia.
From stdpp Require Import base option list gmap strings pretty.

Local Open Scope Z_scope.

(** ** Python values and exceptions *)

(** Exceptions the modelled code can raise. *)
Inductive exn : Type :=
| KeyError (key : string)
| IndexError
| StopIteration
| AttributeError
| IntegrityError (constraint : string).

(** Result of running a piece of Python: a value or a raised exception. *)
Inductive outcome (A : Type) : Type :=
| Ok (a : A)
| Raise (e : exn).
Arguments Ok {A} a.
Arguments Raise {A} e.

(** ** Python [str] primitives

    A [string] is read as a sequence of code points below 256.  [upper] and
    [capitalize] are applied by the source to the ASCII size tokens only.
    The message literals further down keep the bytes of the source file. *)
Module Py.

Definition code (c : ascii) : N := N_of_ascii c.

(** [str.lower] on one code point: A-Z and the Latin-1 capitals. *)
Definition lower_char (c : ascii) : ascii :=
  let n := code c in
  if ((65 <=? n) && (n <=? 90))%N
     || ((192 <=? n) && (n <=? 222) && negb (n =? 215))%N
  then ascii_of_N (n + 32) else c.

(** [str.upper] on one ASCII code point. *)
Definition upper_char (c : ascii) : ascii :=
  let n := code c in
  if ((97 <=? n) && (n <=? 122))%N then ascii_of_N (n - 32) else c.

Fixpoint map_string (f : ascii -> ascii) (s : string) : string :=
  match s with
  | EmptyString => EmptyString
  | String c s' => String (f c) (map_string f s')
  end.

Definition lower (s : string) : string := map_string lower_char s.
Definition upper (s : string) : string := map_string upper_char s.

(** [str.capitalize]: first character upper-cased, the rest lower-cased. *)
Definition capitalize (s : string) : string :=
  match s with
  | EmptyString => EmptyString
  | String c s' => String (upper_char c) (lower s')
  end.

(** [str.isspace] on one code point. *)
Definition is_space (c : ascii) : bool :=
  let n := code c in
  (((9 <=? n) && (n <=? 13)) || ((28 <=? n) && (n <=? 32))
   || (n =? 133) || (n =? 160))%N.

Fixpoint lstrip (s : string) : string :=
  match s with
  | EmptyString => EmptyString
  | String c s' => if is_space c then lstrip s' else s
  end.

Fixpoint rstrip (s : string) : string :=
  match s with
  | EmptyString => EmptyString
  | String c s' =>
      match rstrip s' with
      | EmptyString => if is_space c then EmptyString else String c EmptyString
      | r => String c r
      end
  end.

(** [str.strip()] with no argument. *)
Definition strip (s : string) : string := rstrip (lstrip s).

(** [s.startswith(p)]. *)
Definition startswith (s p : string) : bool := String.prefix p s.

(** [needle in hay] on strings: substring containment. *)
Fixpoint contains (needle hay : string) : bool :=
  String.prefix needle hay
  || match hay with
     | EmptyString => false
     | String _ hay' => contains needle hay'
     end.

(** [any(k in s for k in ks)]. *)
Definition any_in (ks : list string) (s : string) : bool :=
  existsb (fun k => contains k s) ks.

(** [sep.join(parts)]. *)
Fixpoint join (sep : string) (parts : list string) : string :=
  match parts with
  | [] => EmptyString
  | [p] => p
  | p :: ps => p +:+ sep +:+ join sep ps
  end.

(** Truthiness of an optional string ([None] and [''] are falsy). *)
Definition truthy_str (o : option string) : bool :=
  match o with
  | Some s => negb (String.eqb s EmptyString)
  | None => false
  end.

End Py.

(** ** The part of [difflib] used by [get_close_matches]

    [SequenceMatcher] with [isjunk=None] and [autojunk=True], as in CPython.
    Sequence [b] is the word looked up, sequence [a] a candidate. *)
Module difflib.

Definition chars (s : string) : list ascii := list_ascii_of_string s.

Fixpoint indices_from (n : nat) (x : ascii) (b : list ascii) : list nat :=
  match b with
  | [] => []
  | y :: b' =>
      if Ascii.eqb x y then n :: indices_from (S n) x b'
      else indices_from (S n) x b'
  end.

(** Elements purged from [b2j] by the autojunk heuristic of [__chain_b]. *)
Definition popular (b : list ascii) (x : ascii) : bool :=
  let n := length b in
  ((200 <=? n) && (n / 100 + 1 <? length (indices_from 0 x b)))%nat.

(** [b2j.get(x, [])]: increasing positions of [x] in [b]. *)
Definition b2j (b : list ascii) (x : ascii) : list nat :=
  if popular b x then [] else indices_from 0%nat x b.

(** [j2len.get(j - 1, 0)] for the dict [m] of run lengths. *)
Definition j2lenget (m : list (nat * nat)) (j : nat) : nat :=
  match j with
  | O => O
  | S j' =>
      match find (fun p => Nat.eqb (fst p) j') m with
      | Some p => snd p
      | None => O
      end
  end.

(** Inner loop of [find_longest_match] over the positions [js] of [a[i]]. *)
Fixpoint scan_row (js : list nat) (blo bhi i : nat) (j2len newj2len : list (nat * nat))
    (best : nat * nat * nat) : list (nat * nat) * (nat * nat * nat) :=
  match js with
  | [] => (newj2len, best)
  | j :: js' =>
      if (j <? blo)%nat then scan_row js' blo bhi i j2len newj2len best
      else if (bhi <=? j)%nat then (newj2len, best)
      else
        let k := S (j2lenget j2len j) in
        let best' := if (snd best <? k)%nat then (i + 1 - k, j + 1 - k, k)%nat else best in
        scan_row js' blo bhi i j2len ((j, k) :: newj2len) best'
  end.

(** Outer loop of [find_longest_match]: [for i in range(alo, ahi)]. *)
Fixpoint scan_rows (rows : list nat) (a b : list ascii) (blo bhi : nat)
    (j2len : list (nat * nat)) (best : nat * nat * nat) : nat * nat * nat :=
  match rows with
  | [] => best
  | i :: rows' =>
      match a !! i with
      | Some x =>
          let '(newj2len, best') := scan_row (b2j b x) blo bhi i j2len [] best in
          scan_rows rows' a b blo bhi newj2len best'
      | None => best
      end
  end.

(** First extension loop: grow the block to the left while elements agree. *)
Fixpoint extend_left (a b : list ascii) (alo blo besti bestj bestsize : nat)
    : nat * nat * nat :=
  match besti, bestj with
  | S i', S j' =>
      if (alo <? besti)%nat && (blo <? bestj)%nat
         && bool_decide (a !! i' = b !! j')
      then extend_left a b alo blo i' j' (S bestsize)
      else (besti, bestj, bestsize)
  | _, _ => (besti, bestj, bestsize)
  end.

(** Second extension loop: grow the block to the right. *)
Fixpoint extend_right (fuel : nat) (a b : list ascii) (ahi bhi besti bestj bestsize : nat)
    : nat * nat * nat :=
  match fuel with
  | O => (besti, bestj, bestsize)
  | S fuel' =>
      if (besti + bestsize <? ahi)%nat && (bestj + bestsize <? bhi)%nat
         && bool_decide (a !! (besti + bestsize)%nat = b !! (bestj + bestsize)%nat)
      then extend_right fuel' a b ahi bhi besti bestj (S bestsize)
      else (besti, bestj, bestsize)
  end.

(** [find_longest_match(alo, ahi, blo, bhi)].  With no junk the two loops
    over junk elements never run. *)
Definition find_longest_match (a b : list ascii) (alo ahi blo bhi : nat)
    : nat * nat * nat :=
  let '(besti, bestj, bestsize) :=
    scan_rows (seq alo (ahi - alo)) a b blo bhi [] (alo, blo, O) in
  let '(besti, bestj, bestsize) := extend_left a b alo blo besti bestj bestsize in
  extend_right (ahi - (besti + bestsize)) a b ahi bhi besti bestj bestsize.

(** The work-list loop of [get_matching_blocks]; the head of [queue] is the
    entry [queue.pop()] returns.  Only the total size is kept: sorting and
    merging adjacent blocks do not change it. *)
Fixpoint blocks_loop (fuel : nat) (a b : list ascii)
    (queue : list (nat * nat * nat * nat)) (matches : nat) : option nat :=
  match queue with
  | [] => Some matches
  | (alo, ahi, blo, bhi) :: queue' =>
      match fuel with
      | O => None
      | S fuel' =>
          let '(i, j, k) := find_longest_match a b alo ahi blo bhi in
          if (k =? 0)%nat then blocks_loop fuel' a b queue' matches
          else
            let q1 := if (alo <? i)%nat && (blo <? j)%nat
                      then (alo, i, blo, j) :: queue' else queue' in
            let q2 := if (i + k <? ahi)%nat && (j + k <? bhi)%nat
                      then (i + k, ahi, j + k, bhi)%nat :: q1 else q1 in
            blocks_loop fuel' a b q2 (matches + k)%nat
      end
  end.

(** [sum(triple[-1] for triple in self.get_matching_blocks())].  The fuel
    always suffices, see [matches_total]. *)
Definition matches (a b : list ascii) : nat :=
  default O (blocks_loop (2 * length a + 2) a b [(O, length a, O, length b)] O).

(** [_calculate_ratio(matches, length) >= cutoff] for [cutoff = 1/2]:
    [2.0 * matches / length >= 0.5], and [1.0 >= 0.5] when [length] is 0.
    Ratios are kept as pairs of naturals; on sequences of any realistic
    length the floating-point comparisons agree with the exact ones. *)
Definition ratio_ge_half (m len : nat) : bool :=
  if (len =? 0)%nat then true else (len <=? 4 * m)%nat.

(** [_calculate_ratio(m1, len1) < _calculate_ratio(m2, len2)]. *)
Definition ratio_lt (m1 len1 m2 len2 : nat) : bool :=
  match len1, len2 with
  | O, _ => false
  | _, O => (2 * m1 <? len1)%nat
  | _, _ => (m1 * len2 <? m2 * len1)%nat
  end.

Definition ratio_eq (m1 len1 m2 len2 : nat) : bool :=
  negb (ratio_lt m1 len1 m2 len2) && negb (ratio_lt m2 len2 m1 len1).

(** Matches counted by [quick_ratio]: size of the multiset intersection. *)
Fixpoint quick_matches (a : list ascii) (avail : list (ascii * Z)) (b : list ascii) : nat :=
  match a with
  | [] => O
  | x :: a' =>
      let numb :=
        match find (fun p => Ascii.eqb (fst p) x) avail with
        | Some p => snd p
        | None => Z.of_nat (length (indices_from 0 x b))
        end in
      ((if (0 <? numb)%Z then 1 else 0) + quick_matches a' ((x, (numb - 1)%Z) :: avail) b)%nat
  end.

(** A scored candidate [(s.ratio(), x)], the ratio kept as matches/length. *)
Record scored := { sc_matches : nat; sc_length : nat; sc_word : string }.

(** Tuple order on [(score, x)]: by score, then by the string. *)
Definition scored_lt (p q : scored) : bool :=
  ratio_lt (sc_matches p) (sc_length p) (sc_matches q) (sc_length q)
  || (ratio_eq (sc_matches p) (sc_length p) (sc_matches q) (sc_length q)
      && bool_decide (String.ltb (sc_word p) (sc_word q) = true)).

(** The filter of [get_close_matches] with [cutoff = 0.5]. *)
Definition close_enough (word x : string) : option scored :=
  let a := chars x in
  let b := chars word in
  let len := (length a + length b)%nat in
  if ratio_ge_half (Nat.min (length a) (length b)) len
     && ratio_ge_half (quick_matches a [] b) len
     && ratio_ge_half (matches a b) len
  then Some {| sc_matches := matches a b; sc_length := len; sc_word := x |}
  else None.

(** [max] of a list of scored candidates: the first maximal one. *)
Fixpoint max_scored (best : scored) (rest : list scored) : scored :=
  match rest with
  | [] => best
  | q :: rest' => max_scored (if scored_lt best q then q else best) rest'
  end.

(** [get_close_matches(word, possibilities, n=1, cutoff=0.5)]. *)
Definition get_close_matches (word : string) (possibilities : list string) : list string :=
  match omap (close_enough word) possibilities with
  | [] => []
  | p :: ps => [sc_word (max_scored p ps)]
  end.

End difflib.

(** Fuel [blocks_loop] spends on a queue: one unit per entry and two per
    element of [a] the entry still covers. *)
Definition queue_weight (queue : list (nat * nat * nat * nat)) : nat :=
  foldr (fun e acc => 2 * (snd (fst (fst e)) - fst (fst (fst e))) + 1 + acc)%nat O queue.

(** ** Menu catalog and delivery zones *)

(** A Python dict whose iteration order matters: keys in insertion order. *)
Definition dict (V : Type) : Type := list (string * V).

(** [k in d] and [d[k]] / [d.get(k)]. *)
Definition dict_get {V : Type} (k : string) (d : dict V) : option V :=
  snd <$> find (fun p => String.eqb (fst p) k) d.

(** One entry of [menu['items']]. *)
Record menu_item : Type := MenuItem { name : string; prices : dict Z }.

(** The built-in catalog, used when [data/menu.json] cannot be read. *)
Definition chicken_tikka : menu_item :=
  MenuItem "Chicken Tikka Pizza" [("Small", 350); ("Medium", 650); ("Large", 950)].
Definition pepperoni : menu_item :=
  MenuItem "Pepperoni Pizza" [("Small", 400); ("Medium", 700); ("Large", 1000)].
Definition margherita : menu_item :=
  MenuItem "Margherita Pizza" [("Small", 300); ("Medium", 550); ("Large", 800)].
Definition fries : menu_item := MenuItem "Fries" [("OneSize", 120)].
Definition pepsi : menu_item := MenuItem "Pepsi 1.5L" [("OneSize", 250)].

Definition default_menu : list menu_item :=
  [chicken_tikka; pepperoni; margherita; fries; pepsi].

(** The built-in [delivery_charges['zones']]. *)
Definition default_zones : dict Z :=
  [("City Center", 80); ("Fauji Colony", 100); ("Near DHQ", 120); ("Outskirts", 150)].

(** ** [match_menu_item] *)

Definition size_tokens : list string :=
  ["Large"; "large"; "L"; "l"; "Medium"; "medium"; "M"; "m";
   "Small"; "small"; "S"; "s"].

(** [s.capitalize() if len(s) > 1 else s.upper()]. *)
Definition normalize_size (s : string) : string :=
  if (1 <? String.length s)%nat then Py.capitalize s else Py.upper s.

(** The size loop: the first token of [size_tokens] found in [text]. *)
Definition detect_size (text : string) : option string :=
  normalize_size <$> find (fun s => Py.contains s text) size_tokens.

(** [(next(iter(prices.values())), list(prices.keys())[0])]. *)
Definition first_price (it : menu_item) : outcome (option (menu_item * Z * string)) :=
  match prices it with
  | [] => Raise StopIteration
  | (k, v) :: _ => Ok (Some (it, v, k))
  end.

(** The price choice of the fuzzy pass when a size was detected. *)
Definition price_for_size (it : menu_item) (size : string)
    : outcome (option (menu_item * Z * string)) :=
  match dict_get size (prices it) with
  | Some p => Ok (Some (it, p, size))
  | None =>
      match dict_get "OneSize" (prices it) with
      | Some p => Ok (Some (it, p, "OneSize"))
      | None =>
          match dict_get "Medium" (prices it) with
          | Some p => Ok (Some (it, p, "Medium"))
          | None => first_price it
          end
      end
  end.

(** The price choice when no size is used: Medium, OneSize, first entry. *)
Definition price_default (it : menu_item) : outcome (option (menu_item * Z * string)) :=
  match dict_get "Medium" (prices it) with
  | Some p => Ok (Some (it, p, "Medium"))
  | None =>
      match dict_get "OneSize" (prices it) with
      | Some p => Ok (Some (it, p, "OneSize"))
      | None => first_price it
      end
  end.

(** The second loop of [match_menu_item]: item name inside the text, both
    lower-cased; the detected size is not consulted. *)
Definition substring_fallback (items : list menu_item) (text : string)
    : outcome (option (menu_item * Z * string)) :=
  match find (fun it => Py.contains (Py.lower (name it)) (Py.lower text)) items with
  | Some it => price_default it
  | None => Ok None
  end.

(** [match_menu_item(text)] over the catalog [items]; [None] stands for the
    triple [(None, None, None)]. *)
Definition match_menu_item (items : list menu_item) (text : string)
    : outcome (option (menu_item * Z * string)) :=
  let text := Py.strip text in
  let size := detect_size text in
  let names := map name items in
  match difflib.get_close_matches text names with
  | m :: _ =>
      match find (fun it => String.eqb (name it) m) items with
      | Some it =>
          match size with
          | Some size => price_for_size it size
          | None => price_default it
          end
      | None => substring_fallback items text
      end
  | [] => substring_fallback items text
  end.

(** ** [calculate_delivery_charge] *)

(** The loop over [zones.items()]: first zone whose lower-cased name occurs
    in the lower-cased address. *)
Fixpoint first_zone_in (addr : string) (zones : dict Z) : option (Z * string) :=
  match zones with
  | [] => None
  | (zone, charge) :: rest =>
      if Py.contains (Py.lower zone) addr then Some (charge, zone)
      else first_zone_in addr rest
  end.

(** [calculate_delivery_charge(address_text)] over the zone table; the
    fallback indexes position 0 of the values and keys. *)
Definition calculate_delivery_charge (zones : dict Z) (address_text : string)
    : outcome (Z * string) :=
  let addr := Py.lower address_text in
  match first_zone_in addr zones with
  | Some r => Ok r
  | None =>
      match zones with
      | [] => Raise IndexError
      | (zone, charge) :: _ => Ok (charge, zone)
      end
  end.

(** The zone of [zc] does not occur in the address (case-insensitively). *)
Definition misses (address_text : string) (zc : string * Z) : Prop :=
  Py.contains (Py.lower (fst zc)) (Py.lower address_text) = false.

(** ** Orders, sessions and the program state *)

(** A cart entry or an item of a submitted order: a JSON object whose keys
    may be missing. *)
Record item : Type := Item {
  i_name : option string;
  i_size : option string;
  i_price : option Z;
  i_qty : option Z
}.

(** The [order] dict handed to [persist_order_to_db]; fields read with
    [order.get] are optional. *)
Record order : Type := Order {
  o_order_id : string;
  o_customer_phone : string;
  o_customer_name : option string;
  o_items : list item;
  o_subtotal : Z;
  o_delivery_charges : Z;
  o_total : Z;
  o_payment_method : string;
  o_payment_status : option string;
  o_status : option string;
  o_address : option string;
  o_lat : option string;
  o_lng : option string;
  o_created_at : option string;
  o_screenshot_path : option string
}.

(** A row of the [orders] table, minus its primary key [order_id]. *)
Record order_row : Type := Row {
  r_customer_phone : string;
  r_customer_name : option string;
  r_items_json : list item;
  r_subtotal : Z;
  r_delivery_charges : Z;
  r_total : Z;
  r_payment_method : string;
  r_payment_status : string;
  r_status : string;
  r_address : option string;
  r_lat : option string;
  r_lng : option string;
  r_created_at : option string;
  r_verified_at : option string;
  r_screenshot_path : option string
}.

(** The dict [notify_rider] reads: [order_id], [customer_phone], [items],
    [address], [total]. *)
Record rider_order : Type := RiderOrder {
  n_order_id : string;
  n_customer_phone : string;
  n_items : list item;
  n_address : option string;
  n_total : Z
}.

(** One value of the [sessions] dict; [None] is a missing key. *)
Record session : Type := Session {
  s_cart : option (list item);
  s_subtotal : option Z;
  s_awaiting_address : option bool;
  s_address : option string;
  s_delivery_charges : option Z;
  s_total : option Z;
  s_pending_order_id : option string;
  s_last_location : option string
}.

Definition empty_session : session :=
  Session None None None None None None None None.

(** Module-level state of the process together with its outside world: the
    [sessions] dict, the [orders] table keyed by [order_id], the lines
    printed by [send_whatsapp] as (recipient, text), the arguments of the
    [notify_rider] threads started so far, and the loaded [menu] and
    [delivery_charges]. *)
Record world : Type := World {
  sessions : gmap string session;
  orders : gmap string order_row;
  outbox : list (string * string);
  rider_threads : list rider_order;
  menu : list menu_item;
  zones : dict Z
}.

Definition set_sessions (f : gmap string session -> gmap string session) (w : world) : world :=
  World (f (sessions w)) (orders w) (outbox w) (rider_threads w) (menu w) (zones w).
Definition set_orders (f : gmap string order_row -> gmap string order_row) (w : world) : world :=
  World (sessions w) (f (orders w)) (outbox w) (rider_threads w) (menu w) (zones w).
Definition set_outbox (f : list (string * string) -> list (string * string)) (w : world) : world :=
  World (sessions w) (orders w) (f (outbox w)) (rider_threads w) (menu w) (zones w).
Definition set_rider_threads (f : list rider_order -> list rider_order) (w : world) : world :=
  World (sessions w) (orders w) (outbox w) (f (rider_threads w)) (menu w) (zones w).

(** A process started with the built-in menu and zones and nothing else. *)
Definition initial_world : world := World ∅ ∅ [] [] default_menu default_zones.

(** ** State-and-exception monad

    A raised exception keeps the state reached so far, as in Python. *)
Definition M (A : Type) : Type := world -> outcome A * world.

Definition ret {A : Type} (a : A) : M A := fun w => (Ok a, w).
Definition raise {A : Type} (e : exn) : M A := fun w => (Raise e, w).
Definition bind {A B : Type} (c : M A) (k : A -> M B) : M B :=
  fun w =>
    match c w with
    | (Ok a, w') => k a w'
    | (Raise e, w') => (Raise e, w')
    end.
Definition get_world : M world := fun w => (Ok w, w).
Definition modify (f : world -> world) : M unit := fun w => (Ok tt, f w).
Definition lift {A : Type} (o : outcome A) : M A := fun w => (o, w).

#[global] Instance M_ret : MRet M := @ret.
#[global] Instance M_bind : MBind M := fun A B k c => bind c k.

(** [d[key]] on an optional field: [KeyError] when the key is missing. *)
Definition subscript {A : Type} (key : string) (o : option A) : outcome A :=
  match o with
  | Some a => Ok a
  | None => Raise (KeyError key)
  end.

(** [str(x)] of an optional value, as an f-string renders it. *)
Definition fmt_opt (o : option string) : string := default "None" o.
Definition fmt_int (z : Z) : string := pretty z.
Definition fmt_opt_int (o : option Z) : string := default "None" (fmt_int <$> o).

(** [send_whatsapp(to, text)]: the stub prints one line. *)
Definition send_whatsapp (to text : string) : M unit :=
  modify (set_outbox (fun l => (l ++ [(to, text)])%list)).

(** ** Order store: [persist_order_to_db] and [update_order_payment_status] *)

Definition row_of_order (o : order) : order_row :=
  {| r_customer_phone := o_customer_phone o;
     r_customer_name := o_customer_name o;
     r_items_json := o_items o;
     r_subtotal := o_subtotal o;
     r_delivery_charges := o_delivery_charges o;
     r_total := o_total o;
     r_payment_method := o_payment_method o;
     r_payment_status := default "pending" (o_payment_status o);
     r_status := default "initiated" (o_status o);
     r_address := o_address o;
     r_lat := o_lat o;
     r_lng := o_lng o;
     r_created_at := o_created_at o;
     r_verified_at := None;
     r_screenshot_path := o_screenshot_path o |}.

(** [persist_order_to_db(order)]: a plain [INSERT]; [order_id] is the
    table's [PRIMARY KEY], so a second row with the same id is refused with
    [sqlite3.IntegrityError] and nothing is committed. *)
Definition persist_order_to_db (o : order) : M unit :=
  w ← get_world;
  match orders w !! o_order_id o with
  | Some _ => raise (IntegrityError "UNIQUE constraint failed: orders.order_id")
  | None => modify (set_orders (insert (o_order_id o) (row_of_order o)))
  end.

(** The two [UPDATE] statements, applied to one row. *)
Definition update_with_screenshot (payment_status screenshot_path now : string)
    (r : order_row) : order_row :=
  {| r_customer_phone := r_customer_phone r;
     r_customer_name := r_customer_name r;
     r_items_json := r_items_json r;
     r_subtotal := r_subtotal r;
     r_delivery_charges := r_delivery_charges r;
     r_total := r_total r;
     r_payment_method := r_payment_method r;
     r_payment_status := payment_status;
     r_status := if String.eqb payment_status "pending"
                 then "awaiting_verification" else "confirmed";
     r_address := r_address r;
     r_lat := r_lat r;
     r_lng := r_lng r;
     r_created_at := r_created_at r;
     r_verified_at := Some now;
     r_screenshot_path := Some screenshot_path |}.

Definition update_without_screenshot (payment_status : string) (r : order_row) : order_row :=
  {| r_customer_phone := r_customer_phone r;
     r_customer_name := r_customer_name r;
     r_items_json := r_items_json r;
     r_subtotal := r_subtotal r;
     r_delivery_charges := r_delivery_charges r;
     r_total := r_total r;
     r_payment_method := r_payment_method r;
     r_payment_status := payment_status;
     r_status := if String.eqb payment_status "paid" then "confirmed" else "pending";
     r_address := r_address r;
     r_lat := r_lat r;
     r_lng := r_lng r;
     r_created_at := r_created_at r;
     r_verified_at := r_verified_at r;
     r_screenshot_path := r_screenshot_path r |}.

(** [UPDATE orders SET status=? WHERE order_id=?]. *)
Definition set_status (status : string) (r : order_row) : order_row :=
  {| r_customer_phone := r_customer_phone r;
     r_customer_name := r_customer_name r;
     r_items_json := r_items_json r;
     r_subtotal := r_subtotal r;
     r_delivery_charges := r_delivery_charges r;
     r_total := r_total r;
     r_payment_method := r_payment_method r;
     r_payment_status := r_payment_status r;
     r_status := status;
     r_address := r_address r;
     r_lat := r_lat r;
     r_lng := r_lng r;
     r_created_at := r_created_at r;
     r_verified_at := r_verified_at r;
     r_screenshot_path := r_screenshot_path r |}.

(** [UPDATE ... WHERE order_id=?] with a possibly missing id: a [NULL] id
    and an unknown id both select no row. *)
Definition sql_update (order_id : option string) (f : order_row -> order_row) : M unit :=
  match order_id with
  | Some oid => modify (set_orders (alter f oid))
  | None => ret tt
  end.

(** [SELECT ... WHERE order_id=?] followed by [fetchone()]. *)
Definition sql_select (order_id : option string) : M (option order_row) :=
  w ← get_world;
  ret (order_id ≫= fun oid => orders w !! oid).

(** [update_order_payment_status(order_id, payment_status, screenshot_path)];
    [now] is [datetime.utcnow().isoformat()]. *)
Definition update_order_payment_status (order_id : option string)
    (payment_status : string) (screenshot_path : option string) (now : string) : M unit :=
  if Py.truthy_str screenshot_path
  then sql_update order_id
         (update_with_screenshot payment_status (default "" screenshot_path) now)
  else sql_update order_id (update_without_screenshot payment_status).

(** ** Message texts

    The literals and f-strings of the source; [nl] is a line feed and [dq] a
    double quote. *)
Definition nl : string := String "010"%char EmptyString.
Definition dq : string := String "034"%char EmptyString.

Definition msg_usage_prompt : string :=
  "Great â€” send me the item name (e.g., " +:+ dq +:+ "Large Chicken Tikka" +:+ dq
  +:+ ") or type MENU to see options.".

Definition price_str (ps : dict Z) : string :=
  Py.join ", " (map (fun kv => fst kv +:+ ": Rs " +:+ fmt_int (snd kv)) ps).

Definition menu_lines (items : list menu_item) : list string :=
  "Menu:" :: map (fun it => "- " +:+ name it +:+ " (" +:+ price_str (prices it) +:+ ")") items.

Definition msg_menu (items : list menu_item) : string := Py.join nl (menu_lines items).

Definition msg_added (size item_name : string) (price subtotal : Z) : string :=
  "Added to cart: " +:+ size +:+ " " +:+ item_name +:+ " = Rs " +:+ fmt_int price +:+ "." +:+ nl
  +:+ "Current total: Rs " +:+ fmt_int subtotal +:+ "." +:+ nl
  +:+ "Reply CHECKOUT to proceed or add more items.".

Definition msg_item_not_found : string :=
  "Sorry, I couldn't find that item in the menu. Please type the exact name or type MENU to view options.".

Definition msg_cart_empty_checkout : string :=
  "Your cart is empty. Send an item name to add.".

Definition msg_checkout (subtotal : Z) : string :=
  "Your subtotal is Rs " +:+ fmt_int subtotal
  +:+ ". Please share delivery address or type PICKUP." +:+ nl
  +:+ "Payment options: 1) Cash on Delivery 2) Online Payment (send screenshot after transfer). Reply COD or ONLINE.".

Definition msg_cart_empty_payment : string :=
  "Your cart is empty. Add items before choosing payment.".

Definition msg_share_address : string :=
  "Please share your delivery address (text) or tap Share Location.".

Definition msg_cart_empty_pickup : string :=
  "Your cart is empty. Add items before choosing pickup.".

Definition msg_pickup_confirmed (order_id : string) : string :=
  "âœ… Order " +:+ order_id
  +:+ " confirmed for pickup. ETA ~45 minutes. We have notified the kitchen and rider.".

Definition msg_order_preview (dc : Z) (zone : string) (subtotal total : Z) : string :=
  "Delivery Charges: Rs " +:+ fmt_int dc +:+ " (Zone: " +:+ zone +:+ ")" +:+ nl
  +:+ "Subtotal: Rs " +:+ fmt_int subtotal +:+ nl
  +:+ "Grand Total: Rs " +:+ fmt_int total +:+ nl
  +:+ "Payment: COD or ONLINE? Reply COD or ONLINE.".

Definition msg_address_first : string :=
  "Please share your delivery address first so I can calculate delivery charges.".

Definition msg_bank (total : Z) (order_id : string) : string :=
  "Please make payment to:" +:+ nl +:+ "Bank: XYZ Bank" +:+ nl +:+ "Account: Pizza Home" +:+ nl
  +:+ "Account Number: 1234-5678-9012" +:+ nl +:+ "Account Title: Pizza Home" +:+ nl
  +:+ "Amount: Rs " +:+ fmt_int total +:+ nl
  +:+ "After payment, please send a screenshot using UPLOAD SCREENSHOT button or by sending the image here."
  +:+ nl +:+ "Your Order ID: " +:+ order_id.

Definition msg_upload_instructions : string :=
  "Please use the file upload option in WhatsApp to send your payment screenshot. Use the endpoint /upload/screenshot with your Order-ID in the form data if using REST client.".

Definition msg_track_prompt : string :=
  "Please send your Order ID to track (e.g., PH-12345).".

Definition msg_order_status (order_id status payment_status : string) (total : Z)
    (created_at : option string) : string :=
  "Order " +:+ order_id +:+ " status: " +:+ status +:+ ". Payment: " +:+ payment_status
  +:+ ". Total: Rs " +:+ fmt_int total +:+ ". Placed at " +:+ fmt_opt created_at +:+ " UTC.".

Definition msg_order_not_found : string :=
  "Order not found. Please check the Order ID.".

Definition msg_help : string :=
  "Sorry, I didn't understand that. You can: 1) Type MENU 2) Type an item name (e.g., 'Large Pepperoni') 3) Type CHECKOUT to pay or COD 4) Type TRACK and Order ID to track".

Definition msg_got_location : string :=
  "Got your location. Please confirm your address or type the full address.".

Definition msg_order_received (order_id : string) (total : Z) : string :=
  "âœ… Order " +:+ order_id +:+ " received. Total Rs " +:+ fmt_int total +:+ ". ETA ~45 minutes.".

Definition msg_screenshot_uploaded (order_id phone save_path : string) : string :=
  "Payment screenshot uploaded for " +:+ order_id +:+ " by " +:+ phone
  +:+ ". Please verify. Screenshot path: " +:+ save_path.

Definition msg_screenshot_thanks : string :=
  "Thanks â€” we received your screenshot. We will verify and confirm your order shortly.".

Definition msg_payment_verified (order_id : string) : string :=
  "âœ… Payment verified for " +:+ order_id +:+ ". Your order will be delivered in ~45 minutes.".

Definition msg_payment_unverified (order_id : string) : string :=
  "Payment for " +:+ order_id +:+ " could not be verified. Please try again or contact support.".

Definition msg_payment_received (order_id : string) : string :=
  "âœ… Payment received for " +:+ order_id +:+ ". Your order will be delivered in ~45 minutes.".

(** ** [notify_rider] *)

Definition rider_item_line (i : item) : string :=
  "- " +:+ fmt_int (default 1 (i_qty i)) +:+ "x " +:+ default "" (i_size i) +:+ " "
  +:+ fmt_opt (i_name i) +:+ " = Rs " +:+ fmt_opt_int (i_price i).

Definition msg_rider (o : rider_order) : string :=
  "ðŸ“¦ New Order: " +:+ n_order_id o +:+ nl
  +:+ "Customer: " +:+ n_customer_phone o +:+ nl
  +:+ "Address: " +:+ fmt_opt (n_address o) +:+ nl
  +:+ "Items:" +:+ nl +:+ Py.join nl (map rider_item_line (n_items o)) +:+ nl
  +:+ "Total: Rs " +:+ fmt_int (n_total o) +:+ nl
  +:+ "Delivery Time: approx 45 minutes".

(** [os.getenv('RIDER_NUMBER', '+923001234567')] with the variable unset. *)
Definition rider_number : string := "+923001234567".

(** [notify_rider(order)], the body of the spawned thread. *)
Definition notify_rider (o : rider_order) : M unit :=
  send_whatsapp rider_number (msg_rider o).

(** [threading.Thread(target=notify_rider, args=(order,)).start()]: the
    thread is recorded with its argument; it runs apart from the request. *)
Definition start_notify_rider (o : rider_order) : M unit :=
  modify (set_rider_threads (fun l => (l ++ [o])%list)).

Definition rider_view (o : order) : rider_order :=
  {| n_order_id := o_order_id o;
     n_customer_phone := o_customer_phone o;
     n_items := o_items o;
     n_address := o_address o;
     n_total := o_total o |}.

(** ** HTTP requests and responses *)

Inductive jval : Type := JStr (s : string) | JInt (z : Z).

(** [jsonify(body), code]. *)
Record response : Type := Response { code : nat; body : dict jval }.

(** The [text] field of a WhatsApp payload: a dict that may carry [body],
    or a plain string. *)
Inductive text_field : Type :=
| TextDict (body : option string)
| TextStr (s : string).

(** The JSON payload posted to [/webhook/whatsapp]. *)
Record payload : Type := Payload {
  p_from : option string;
  p_wa_id : option string;
  p_contact : option string;
  p_type : option string;
  p_text : option text_field;
  p_location : option string;
  p_loc : option string
}.

(** A plain text message from [sender]. *)
Definition text_message (sender text : string) : payload :=
  Payload (Some sender) None None (Some "text") (Some (TextDict (Some text))) None None.

(** Python's [x or y] on optional strings. *)
Definition py_or (x y : option string) : option string :=
  if Py.truthy_str x then x else y.

(** ** Session helpers *)

Definition with_cart (c : list item) (s : session) : session :=
  Session (Some c) (s_subtotal s) (s_awaiting_address s) (s_address s)
    (s_delivery_charges s) (s_total s) (s_pending_order_id s) (s_last_location s).
Definition with_subtotal (v : Z) (s : session) : session :=
  Session (s_cart s) (Some v) (s_awaiting_address s) (s_address s)
    (s_delivery_charges s) (s_total s) (s_pending_order_id s) (s_last_location s).
Definition with_awaiting_address (v : bool) (s : session) : session :=
  Session (s_cart s) (s_subtotal s) (Some v) (s_address s)
    (s_delivery_charges s) (s_total s) (s_pending_order_id s) (s_last_location s).
Definition with_address (v : option string) (s : session) : session :=
  Session (s_cart s) (s_subtotal s) (s_awaiting_address s) v
    (s_delivery_charges s) (s_total s) (s_pending_order_id s) (s_last_location s).
Definition with_delivery_charges (v : Z) (s : session) : session :=
  Session (s_cart s) (s_subtotal s) (s_awaiting_address s) (s_address s)
    (Some v) (s_total s) (s_pending_order_id s) (s_last_location s).
Definition with_total (v : Z) (s : session) : session :=
  Session (s_cart s) (s_subtotal s) (s_awaiting_address s) (s_address s)
    (s_delivery_charges s) (Some v) (s_pending_order_id s) (s_last_location s).
Definition with_pending_order_id (v : string) (s : session) : session :=
  Session (s_cart s) (s_subtotal s) (s_awaiting_address s) (s_address s)
    (s_delivery_charges s) (s_total s) (Some v) (s_last_location s).
Definition with_last_location (v : option string) (s : session) : session :=
  Session (s_cart s) (s_subtotal s) (s_awaiting_address s) (s_address s)
    (s_delivery_charges s) (s_total s) (s_pending_order_id s) v.

(** [sessions.setdefault(sender, dflt)]: the stored dict, inserted first
    when the key is new. *)
Definition setdefault (sender : string) (dflt : session) : M session :=
  w ← get_world;
  match sessions w !! sender with
  | Some s => ret s
  | None => modify (set_sessions (insert sender dflt));; ret dflt
  end.

(** In-place mutation of the dict stored under [sender]. *)
Definition mutate (sender : string) (f : session -> session) : M unit :=
  modify (set_sessions (alter f sender)).

(** [not sess or not sess.get('cart')] for [sess = sessions.get(sender)]:
    the session is missing, or has no [cart] key, or an empty cart (an empty
    dict has no [cart] either).  Returns the cart when there is one. *)
Definition nonempty_cart (o : option session) : option (session * list item) :=
  match o with
  | Some s =>
      match s_cart s with
      | Some (i :: c) => Some (s, i :: c)
      | _ => None
      end
  | None => None
  end.

(** [sum(i['price'] * i.get('qty', 1) for i in cart)]. *)
Fixpoint sum_price_qty (cart : list item) : outcome Z :=
  match cart with
  | [] => Ok 0
  | i :: rest =>
      match i_price i with
      | None => Raise (KeyError "price")
      | Some p =>
          match sum_price_qty rest with
          | Ok s => Ok (p * default 1 (i_qty i) + s)
          | Raise e => Raise e
          end
      end
  end.

(** [sum(i['price'] for i in cart)]. *)
Fixpoint sum_price (cart : list item) : outcome Z :=
  match cart with
  | [] => Ok 0
  | i :: rest =>
      match i_price i with
      | None => Raise (KeyError "price")
      | Some p =>
          match sum_price rest with
          | Ok s => Ok (p + s)
          | Raise e => Raise e
          end
      end
  end.

(** [jsonify({'status': 'ok'})]. *)
Definition status_ok : response := Response 200 [("status", JStr "ok")].

(** Keyword lists of the intent cascade. *)
Definition order_keywords : list string :=
  ["order"; "menu"; "pizza"; "place order"; "order karna"; "order krna"].
Definition item_keywords : list string :=
  ["large"; "medium"; "small"; "fries"; "pepsi"].

(** [f"PH-{uuid.uuid4().hex[:8].upper()}"], [uid] being the eight
    upper-cased hex digits drawn for this request. *)
Definition make_order_id (uid : string) : string := "PH-" +:+ uid.

(** ** [whatsapp_webhook] *)

(** Branch 3: a size or product keyword; delegate to [match_menu_item]. *)
Definition handle_item (sender : string) (text : option string) : M unit :=
  w ← get_world;
  text ← lift (match text with Some t => Ok t | None => Raise AttributeError end);
  found ← lift (match_menu_item (menu w) text);
  match found with
  | Some (it, price, size) =>
      sess ← setdefault sender (with_cart [] empty_session);
      cart ← lift (subscript "cart" (s_cart sess));
      let cart := (cart ++ [Item (Some (name it)) (Some size) (Some price) (Some 1)])%list in
      mutate sender (with_cart cart);;
      subtotal ← lift (sum_price_qty cart);
      send_whatsapp sender (msg_added size (name it) price subtotal)
  | None => send_whatsapp sender msg_item_not_found
  end.

(** Branch 4: [checkout]. *)
Definition handle_checkout (sender : string) : M unit :=
  w ← get_world;
  match nonempty_cart (sessions w !! sender) with
  | None => send_whatsapp sender msg_cart_empty_checkout
  | Some (sess, cart) =>
      subtotal ← lift (sum_price_qty cart);
      mutate sender (with_subtotal subtotal);;
      send_whatsapp sender (msg_checkout subtotal)
  end.

(** Branch 5: [cod] or [cash]. *)
Definition handle_cod (sender : string) : M unit :=
  w ← get_world;
  match nonempty_cart (sessions w !! sender) with
  | None => send_whatsapp sender msg_cart_empty_payment
  | Some (sess, cart) =>
      send_whatsapp sender msg_share_address;;
      mutate sender (with_awaiting_address true)
  end.

(** Branch 6: [pickup].  No code path stores a [name] in a session, so
    [sess.get('name')] is [None]. *)
Definition handle_pickup (sender uid now : string) : M unit :=
  w ← get_world;
  match nonempty_cart (sessions w !! sender) with
  | None => send_whatsapp sender msg_cart_empty_pickup
  | Some (sess, cart) =>
      subtotal ← lift (subscript "subtotal" (s_subtotal sess));
      let order_id := make_order_id uid in
      let o :=
        {| o_order_id := order_id;
           o_customer_phone := sender;
           o_customer_name := None;
           o_items := cart;
           o_subtotal := subtotal;
           o_delivery_charges := 0;
           o_total := subtotal;
           o_payment_method := "cod";
           o_payment_status := Some "pending";
           o_status := Some "confirmed";
           o_address := Some "PICKUP";
           o_lat := None;
           o_lng := None;
           o_created_at := Some now;
           o_screenshot_path := None |} in
      persist_order_to_db o;;
      send_whatsapp sender (msg_pickup_confirmed order_id);;
      start_notify_rider (rider_view o);;
      modify (set_sessions (delete sender))
  end.

(** Branch 7: the text is taken as the address. *)
Definition handle_address (sender : string) (text : option string) : M unit :=
  _ ← setdefault sender empty_session;
  mutate sender (with_address text);;
  mutate sender (with_awaiting_address false);;
  w ← get_world;
  addr ← lift (match text with Some t => Ok t | None => Raise AttributeError end);
  '(dc, zone) ← lift (calculate_delivery_charge (zones w) addr);
  mutate sender (with_delivery_charges dc);;
  w ← get_world;
  let sess := default empty_session (sessions w !! sender) in
  cart_sum ← lift (sum_price (default [] (s_cart sess)));
  let subtotal := default cart_sum (s_subtotal sess) in
  let total := subtotal + dc in
  mutate sender (with_total total);;
  send_whatsapp sender (msg_order_preview dc zone subtotal total).

(** Branch 8: [online]. *)
Definition handle_online (sender uid now : string) : M unit :=
  w ← get_world;
  match nonempty_cart (sessions w !! sender) with
  | None => send_whatsapp sender msg_cart_empty_payment
  | Some (sess, cart) =>
      cart_sum ← lift (sum_price cart);
      let subtotal := default cart_sum (s_subtotal sess) in
      match s_delivery_charges sess with
      | Some dc =>
          if Z.eqb dc 0 then send_whatsapp sender msg_address_first
          else
            let total := subtotal + dc in
            mutate sender (with_total total);;
            let order_id := make_order_id uid in
            mutate sender (with_pending_order_id order_id);;
            send_whatsapp sender (msg_bank total order_id);;
            persist_order_to_db
              {| o_order_id := order_id;
                 o_customer_phone := sender;
                 o_customer_name := None;
                 o_items := cart;
                 o_subtotal := subtotal;
                 o_delivery_charges := dc;
                 o_total := total;
                 o_payment_method := "online_manual";
                 o_payment_status := Some "pending";
                 o_status := Some "awaiting_payment";
                 o_address := s_address sess;
                 o_lat := None;
                 o_lng := None;
                 o_created_at := Some now;
                 o_screenshot_path := None |}
      | None => send_whatsapp sender msg_address_first
      end
  end.

(** Branch 11: a text starting with [PH-] is looked up as an order id. *)
Definition handle_track (sender text : string) : M unit :=
  let order_id := Py.strip text in
  row ← sql_select (Some order_id);
  match row with
  | Some r =>
      send_whatsapp sender
        (msg_order_status order_id (r_status r) (r_payment_status r) (r_total r) (r_created_at r))
  | None => send_whatsapp sender msg_order_not_found
  end.

(** The [if]/[elif] cascade on [lower = (text or '').lower()]. *)
Definition route (sender : string) (text : option string) (uid now : string) : M unit :=
  let lower := Py.lower (default "" text) in
  w ← get_world;
  if Py.any_in order_keywords lower then
    send_whatsapp sender msg_usage_prompt
  else if String.eqb lower "menu" || Py.contains "show menu" lower then
    send_whatsapp sender (msg_menu (menu w))
  else if Py.any_in item_keywords lower then
    handle_item sender text
  else if String.eqb lower "checkout" then
    handle_checkout sender
  else if String.eqb lower "cod" || Py.contains "cash" lower then
    handle_cod sender
  else if String.eqb lower "pickup" then
    handle_pickup sender uid now
  else if Py.contains "confirm address" lower || Py.contains "address" lower
          || bool_decide ((sessions w !! sender) ≫= s_awaiting_address = Some true) then
    handle_address sender text
  else if String.eqb lower "online" then
    handle_online sender uid now
  else if String.eqb lower "upload screenshot" || Py.startswith lower "upload"
          || Py.contains "screenshot" lower then
    send_whatsapp sender msg_upload_instructions
  else if String.eqb lower "track" || Py.contains "track order" lower then
    send_whatsapp sender msg_track_prompt
  else if Py.truthy_str text && Py.startswith (default "" text) "PH-" then
    handle_track sender (default "" text)
  else
    send_whatsapp sender msg_help.

(** [whatsapp_webhook()] on the JSON [payload]; [uid] and [now] are the
    hex digits of [uuid4] and the UTC timestamp available to this request. *)
Definition whatsapp_webhook (p : payload) (uid now : string) : M response :=
  let sender := py_or (py_or (p_from p) (p_wa_id p)) (p_contact p) in
  let message_type := default "text" (p_type p) in
  let finish (text : option string) : M response :=
    if negb (Py.truthy_str sender)
    then ret (Response 400 [("error", JStr "no sender id")])
    else route (default "" sender) text uid now;; ret status_ok in
  if String.eqb message_type "text" || bool_decide (is_Some (p_text p)) then
    finish (match p_text p with
            | Some (TextDict body) => body
            | Some (TextStr s) => Some s
            | None => None
            end)
  else if String.eqb message_type "location" || bool_decide (is_Some (p_location p)) then
    let loc := py_or (p_location p) (p_loc p) in
    if Py.truthy_str sender then
      _ ← setdefault (default "" sender) empty_session;
      mutate (default "" sender) (with_last_location loc);;
      send_whatsapp (default "" sender) msg_got_location;;
      ret status_ok
    else finish None
  else finish None.

(** ** [http_create_order] *)

(** The JSON body posted to [/order/create]. *)
Record create_request : Type := CreateRequest {
  c_customer_phone : option string;
  c_items : option (list item);
  c_payment_method : option string;
  c_customer_name : option string;
  c_delivery_charges : option Z;
  c_address : option string;
  c_lat : option string;
  c_lng : option string
}.

(** [sum(it.get('price', 0) * it.get('qty', 1) for it in items)]. *)
Definition sum_get_price_qty (items : list item) : Z :=
  foldr (fun it acc => default 0 (i_price it) * default 1 (i_qty it) + acc) 0 items.

Definition missing (field : string) : response :=
  Response 400 [("error", JStr ("Missing " +:+ field))].

Definition http_create_order (data : create_request) (uid now : string) : M response :=
  match c_customer_phone data, c_items data, c_payment_method data with
  | None, _, _ => ret (missing "customer_phone")
  | Some _, None, _ => ret (missing "items")
  | Some _, Some _, None => ret (missing "payment_method")
  | Some phone, Some items, Some method =>
      let order_id := make_order_id uid in
      let subtotal := sum_get_price_qty items in
      let dc := default 0 (c_delivery_charges data) in
      let total := subtotal + dc in
      let o :=
        {| o_order_id := order_id;
           o_customer_phone := phone;
           o_customer_name := c_customer_name data;
           o_items := items;
           o_subtotal := subtotal;
           o_delivery_charges := dc;
           o_total := total;
           o_payment_method := method;
           o_payment_status := Some "pending";
           o_status := Some (if String.eqb method "cod" then "confirmed" else "awaiting_payment");
           o_address := c_address data;
           o_lat := c_lat data;
           o_lng := c_lng data;
           o_created_at := Some now;
           o_screenshot_path := None |} in
      persist_order_to_db o;;
      send_whatsapp phone (msg_order_received order_id total);;
      start_notify_rider (rider_view o);;
      ret (Response 201 [("order_id", JStr order_id); ("total", JInt total)])
  end.

(** ** [upload_screenshot] *)

(** The form posted to [/upload/screenshot]; [u_file] is the uploaded
    file's name after [secure_filename]. *)
Record upload_form : Type := UploadForm {
  u_order_id : option string;
  u_phone : option string;
  u_file : option string
}.

Definition UPLOAD_DIR : string := "data/uploads".

(** [os.path.join(a, b)] on POSIX for a non-empty [a] without a trailing
    slash: an absolute [b] replaces [a]. *)
Definition path_join (a b : string) : string :=
  if Py.startswith b "/" then b else a +:+ "/" +:+ b.

Definition admin_phone : string := "+923001234567".

Definition upload_screenshot (form : upload_form) (now : string) : M response :=
  match u_file form with
  | None => ret (Response 400 [("error", JStr "file missing")])
  | Some filename =>
      let save_path := path_join UPLOAD_DIR (fmt_opt (u_order_id form) +:+ "_" +:+ filename) in
      update_order_payment_status (u_order_id form) "pending" (Some save_path) now;;
      send_whatsapp admin_phone
        (msg_screenshot_uploaded (fmt_opt (u_order_id form)) (fmt_opt (u_phone form)) save_path);;
      send_whatsapp (fmt_opt (u_phone form)) msg_screenshot_thanks;;
      ret (Response 200 [("status", JStr "uploaded")])
  end.

(** ** [verify_order] *)

(** The JSON body posted to [/order/verify]; [v_verified] is the truth value
    of [data.get('verified', False)]. *)
Record verify_request : Type := VerifyRequest {
  v_order_id : option string;
  v_verified : bool
}.

Definition verify_order (data : verify_request) (now : string) : M response :=
  let order_id := v_order_id data in
  row ← sql_select order_id;
  match row with
  | None => ret (Response 404 [("error", JStr "order not found")])
  | Some r =>
      let customer_phone := r_customer_phone r in
      if v_verified data then
        update_order_payment_status order_id "paid" None now;;
        send_whatsapp customer_phone (msg_payment_verified (fmt_opt order_id));;
        sql_update order_id (set_status "confirmed");;
        row ← sql_select order_id;
        match row with
        | None => raise AttributeError
        | Some r' =>
            start_notify_rider
              {| n_order_id := fmt_opt order_id;
                 n_customer_phone := customer_phone;
                 n_items := r_items_json r';
                 n_address := r_address r';
                 n_total := r_total r' |};;
            ret (Response 200 [("status", JStr "verified")])
        end
      else
        update_order_payment_status order_id "failed" None now;;
        send_whatsapp customer_phone (msg_payment_unverified (fmt_opt order_id));;
        ret (Response 200 [("status", JStr "failed")])
  end.

(** ** [payment_webhook] *)

Record payment_event : Type := PaymentEvent {
  e_order_id : option string;
  e_status : option string
}.

Definition payment_webhook (data : payment_event) (now : string) : M response :=
  let order_id := e_order_id data in
  (if bool_decide (e_status data = Some "paid") then
     update_order_payment_status order_id "paid" None now;;
     row ← sql_select order_id;
     match row with
     | Some r => send_whatsapp (r_customer_phone r) (msg_payment_received (fmt_opt order_id))
     | None => ret tt
     end;;
     row ← sql_select order_id;
     match row with
     | Some r =>
         start_notify_rider
           {| n_order_id := fmt_opt order_id;
              n_customer_phone := r_customer_phone r;
              n_items := r_items_json r;
              n_address := r_address r;
              n_total := r_total r |}
     | None => ret tt
     end
   else ret tt);;
  ret status_ok.

(** ** [upload_delivery_charges] *)

(** The JSON object posted to [/delivery/upload]: its [zones] entry, if any,
    and whether it has other keys.  Writing the file is left out. *)
Record delivery_body : Type := DeliveryBody {
  d_zones : option (dict Z);
  d_other_keys : bool
}.

Definition set_zones (z : dict Z) (w : world) : world :=
  World (sessions w) (orders w) (outbox w) (rider_threads w) (menu w) z.

(** [upload_delivery_charges()]: an empty object is refused; otherwise the
    body becomes [delivery_charges], whose table is
    [delivery_charges.get('zones', {})]. *)
Definition upload_delivery_charges (data : delivery_body) : M response :=
  if negb (bool_decide (is_Some (d_zones data)) || d_other_keys data)
  then ret (Response 400 [("error", JStr "missing body")])
  else
    modify (set_zones (default [] (d_zones data)));;
    ret (Response 200 [("status", JStr "delivery saved")]).

(** ** Running a conversation *)

(** One inbound text message with the request's [uid] and timestamp. *)
Record inbound : Type := Inbound { in_text : string; in_uid : string; in_now : string }.

(** Deliver the messages in order, stopping at the first exception. *)
Fixpoint converse (sender : string) (msgs : list inbound) : M unit :=
  match msgs with
  | [] => ret tt
  | m :: rest =>
      whatsapp_webhook (text_message sender (in_text m)) (in_uid m) (in_now m);;
      converse sender rest
  end.

(** Recomputation of an order's total from its stored items and fee. *)
Definition recomputed_total (r : order_row) : Z :=
  sum_get_price_qty (r_items_json r) + r_delivery_charges r.

(** ** Serving requests *)

(** A request to one of the modelled endpoints. *)
Inductive request : Type :=
| WhatsApp (p : payload) (uid now : string)
| CreateOrder (data : create_request) (uid now : string)
| UploadScreenshot (form : upload_form) (now : string)
| VerifyOrder (data : verify_request) (now : string)
| PaymentWebhook (data : payment_event) (now : string)
| UploadDelivery (data : delivery_body).

Definition serve (rq : request) : M response :=
  match rq with
  | WhatsApp p uid now => whatsapp_webhook p uid now
  | CreateOrder data uid now => http_create_order data uid now
  | UploadScreenshot form now => upload_screenshot form now
  | VerifyOrder data now => verify_order data now
  | PaymentWebhook data now => payment_webhook data now
  | UploadDelivery data => upload_delivery_charges data
  end.

(** The state after a sequence of requests.  A request that raises is
    answered with a 500 by Flask; the process and the state reached so far
    live on. *)
Fixpoint serve_all (rqs : list request) (w : world) : world :=
  match rqs with
  | [] => w
  | rq :: rest => serve_all rest (snd (serve rq w))
  end.

(** The money columns of a row add up. *)
Definition consistent (r : order_row) : Prop :=
  r_total r = r_subtotal r + r_delivery_charges r.

(** [r'] is [r] up to the four columns the [UPDATE] statements write:
    [payment_status], [status], [verified_at] and [screenshot_path]. *)
Definition frozen (r r' : order_row) : Prop :=
  r_items_json r' = r_items_json r /\ r_subtotal r' = r_subtotal r
  /\ r_delivery_charges r' = r_delivery_charges r /\ r_total r' = r_total r
  /\ r_customer_phone r' = r_customer_phone r /\ r_customer_name r' = r_customer_name r
  /\ r_payment_method r' = r_payment_method r /\ r_address r' = r_address r
  /\ r_lat r' = r_lat r /\ r_lng r' = r_lng r /\ r_created_at r' = r_created_at r.

(** How the [orders] table may change: stored rows stay, frozen, and new
    rows add up. *)
Definition evolves (m m' : gmap string order_row) : Prop :=
  forall oid,
    match m !! oid, m' !! oid with
    | Some r, Some r' => frozen r r'
    | Some _, None => False
    | None, Some r' => consistent r'
    | None, None => True
    end.

(** A computation that only changes the table in that way. *)
Definition keeps_orders {A : Type} (c : M A) : Prop :=
  forall w, evolves (orders w) (orders (snd (c w))).


(** A cart entry that carries a price. *)
Definition priced (i : item) : Prop := is_Some (i_price i).

(** Every cart of every session holds priced entries only. *)
Definition carts_priced (w : world) : Prop :=
  forall sender s cart,
    sessions w !! sender = Some s -> s_cart s = Some cart -> Forall priced cart.


(** A computation all of whose runs relate the state before to the state
    after by [R], whether it returns or raises. *)
Definition preserving (R : world -> world -> Prop) {A : Type} (c : M A) : Prop :=
  forall w, R w (snd (c w)).

(** The set of stored order ids is the same. *)
Definition same_ids (w w' : world) : Prop := dom (orders w') = dom (orders w).

(** Priced carts stay priced. *)
Definition carts_stay_priced (w w' : world) : Prop := carts_priced w -> carts_priced w'.


(** * Properties *)

(** ** Substring containment *)

Section Substrings.

Lemma append_cons (x : ascii) (a b : string) : String x a +:+ b = String x (a +:+ b).
Proof. reflexivity. Qed.

Lemma append_nil_l (b : string) : EmptyString +:+ b = b.
Proof. reflexivity. Qed.

Lemma append_nil_r (a : string) : a +:+ EmptyString = a.
Proof. induction a as [|x a IH]; [reflexivity | rewrite append_cons; congruence]. Qed.

Lemma append_assoc (a b c : string) : (a +:+ b) +:+ c = a +:+ (b +:+ c).
Proof.
  induction a as [|x a IH]; [reflexivity | rewrite !append_cons; congruence].
Qed.

Lemma prefix_app (p t : string) : String.prefix p (p +:+ t) = true.
Proof.
  induction p as [|x p IH].
  - now destruct t.
  - rewrite append_cons. simpl. destruct (ascii_dec x x); [exact IH | congruence].
Qed.

Lemma prefix_elim (p s : string) :
  String.prefix p s = true -> exists t, s = p +:+ t.
Proof.
  revert s. induction p as [|x p IH]; intros s H.
  - exists s. reflexivity.
  - destruct s as [|y s]; simpl in H; [discriminate|].
    destruct (ascii_dec x y) as [->|]; [|discriminate].
    destruct (IH _ H) as [t ->]. exists t. now rewrite append_cons.
Qed.

Lemma contains_prefix (n h : string) :
  String.prefix n h = true -> Py.contains n h = true.
Proof. intros H. destruct h; simpl in *; now rewrite H. Qed.

Lemma contains_intro (pre n post : string) :
  Py.contains n (pre +:+ (n +:+ post)) = true.
Proof.
  induction pre as [|x pre IH].
  - rewrite append_nil_l. apply contains_prefix, prefix_app.
  - rewrite append_cons. simpl. rewrite IH. apply orb_true_r.
Qed.

Lemma contains_elim (n h : string) :
  Py.contains n h = true -> exists pre post, h = pre +:+ (n +:+ post).
Proof.
  induction h as [|x h IH]; intros H.
  - change (String.prefix n EmptyString || false = true) in H.
    rewrite orb_false_r in H. apply prefix_elim in H as [t Ht].
    now exists EmptyString, t.
  - change (String.prefix n (String x h) || Py.contains n h = true) in H.
    apply orb_true_iff in H as [H|H].
    + apply prefix_elim in H as [t ->]. now exists EmptyString, t.
    + destruct (IH H) as (pre & post & ->). now exists (String x pre), post.
Qed.

(** A text that contains a word contains every piece of that word. *)
Lemma contains_infix (a b c h : string) :
  Py.contains (a +:+ (b +:+ c)) h = true -> Py.contains b h = true.
Proof.
  intros H. apply contains_elim in H as (pre & post & ->).
  replace (pre +:+ ((a +:+ (b +:+ c)) +:+ post))
    with ((pre +:+ a) +:+ (b +:+ (c +:+ post)))
    by now rewrite !append_assoc.
  apply contains_intro.
Qed.

Lemma contains_refl (s : string) : Py.contains s s = true.
Proof.
  pose proof (contains_intro EmptyString s EmptyString) as H.
  now rewrite append_nil_l, append_nil_r in H.
Qed.

End Substrings.

(** ** Menu resolver *)

Section MenuResolver.

(** The size loop stops at the first token found, and the one-letter tokens
    come before the words that contain them. *)
Ltac split_tokens text :=
  repeat match goal with
         | |- context [Py.contains ?tok text] =>
             let E := fresh "E" in destruct (Py.contains tok text) eqn:E
         end.

(** No text is ever resolved to the size label [Small]: a text containing
    [Small] or [small] contains [l], which is tried earlier. *)
Lemma detect_size_never_small (text : string) : detect_size text <> Some "Small".
Proof.
  unfold detect_size, size_tokens. cbn [find].
  split_tokens text; cbn; try discriminate.
  - pose proof (contains_infix "Sma" "l" "l" text) as H. cbn in H. intuition congruence.
  - pose proof (contains_infix "sma" "l" "l" text) as H. cbn in H. intuition congruence.
Qed.

(** The one-letter tokens are upper-cased, not expanded: the detected size
    is one of [Large], [Medium], [L], [M], [S]. *)
Lemma detect_size_range (text size : string) :
  detect_size text = Some size ->
  size ∈ ["Large"; "Medium"; "L"; "M"; "S"].
Proof.
  intros H. pose proof (detect_size_never_small text) as Hs.
  revert H Hs. unfold detect_size, size_tokens. cbn [find].
  split_tokens text; cbn; intros H Hs; inversion H; subst;
    try congruence; set_solver.
Qed.

(** Whenever the fuzzy pass finds nothing, the result is that of the
    substring pass on the stripped text. *)
Lemma match_menu_item_no_fuzzy (items : list menu_item) (text : string) :
  difflib.get_close_matches (Py.strip text) (map name items) = [] ->
  match_menu_item items text = substring_fallback items (Py.strip text).
Proof. intros H. unfold match_menu_item. now rewrite H. Qed.

(** The substring pass answers with the [Medium] price of the first item
    whose name occurs in the text, whatever size the text asks for. *)
Lemma substring_fallback_medium (items : list menu_item) (text : string)
    (it : menu_item) (p : Z) :
  find (fun it => Py.contains (Py.lower (name it)) (Py.lower text)) items = Some it ->
  dict_get "Medium" (prices it) = Some p ->
  substring_fallback items text = Ok (Some (it, p, "Medium")).
Proof. intros Hf Hm. unfold substring_fallback, price_default. now rewrite Hf, Hm. Qed.

(** The fuzzy pass with a detected size that the item prices: the item and
    its price for that size. *)
Lemma match_menu_item_sized (items : list menu_item) (text m size : string)
    (rest : list string) (it : menu_item) (p : Z) :
  difflib.get_close_matches (Py.strip text) (map name items) = m :: rest ->
  find (fun it => String.eqb (name it) m) items = Some it ->
  detect_size (Py.strip text) = Some size ->
  dict_get size (prices it) = Some p ->
  match_menu_item items text = Ok (Some (it, p, size)).
Proof.
  intros Hm Hf Hs Hp. unfold match_menu_item, price_for_size.
  now rewrite Hm, Hf, Hs, Hp.
Qed.

(** C2 (code defect): the exact name [Margherita Pizza] with the size token
    [Small] does not resolve to the item's [Small] price, 300: the size loop
    finds the token [l] inside [Small] first, normalises it to [L], and the
    resolver answers with the [Medium] price, 550. *)
Theorem small_margherita_resolves_to_medium :
  dict_get "Small" (prices margherita) = Some 300
  /\ detect_size "Small Margherita Pizza" = Some "L"
  /\ match_menu_item default_menu "Small Margherita Pizza"
     = Ok (Some (margherita, 550, "Medium")).
Proof. repeat split; vm_compute; reflexivity. Qed.

(** The same happens for every item of the built-in catalog that has a
    [Small] price, and for the one-letter abbreviation. *)
Lemma small_token_never_priced :
  Forall (fun it =>
            forall p, dict_get "Small" (prices it) = Some p ->
              forall tok, tok ∈ ["Small"; "small"; "S"; "s"] ->
              match_menu_item default_menu (tok +:+ " " +:+ name it)
              = Ok (Some (it, default 0 (dict_get "Medium" (prices it)), "Medium")))
         default_menu.
Proof.
  unfold default_menu; repeat (apply Forall_cons; split); try solve [constructor];
    intros p Hp tok Htok; try (vm_compute in Hp; discriminate);
    repeat (apply elem_of_cons in Htok as [->|Htok]; [vm_compute; reflexivity|]);
    inversion Htok.
Qed.

(** With [Large] and [Medium] spelled out the built-in catalog resolves as
    expected. *)
Lemma large_medium_tokens_priced :
  Forall (fun it =>
            forall size p, size ∈ ["Large"; "Medium"] ->
              dict_get size (prices it) = Some p ->
              match_menu_item default_menu (size +:+ " " +:+ name it) = Ok (Some (it, p, size))
              /\ match_menu_item default_menu (Py.lower size +:+ " " +:+ name it)
                 = Ok (Some (it, p, size)))
         default_menu.
Proof.
  unfold default_menu; repeat (apply Forall_cons; split); try solve [constructor];
    intros size p Hsize Hp;
    repeat (apply elem_of_cons in Hsize as [->|Hsize];
            [vm_compute in Hp; try discriminate; inversion Hp; subst;
             split; vm_compute; reflexivity|]);
    inversion Hsize.
Qed.

(** C9 (code defect): on a text no catalog name fuzzy-matches, the
    substring pass does find [Pepperoni Pizza], but it does not apply the
    size rule of the fuzzy pass: the detected size [Large], priced 1000 by
    the item, is dropped and the [Medium] price 700 is returned. *)
Theorem substring_fallback_drops_size :
  let text := "please deliver one Large Pepperoni Pizza to my office" in
  difflib.get_close_matches (Py.strip text) (map name default_menu) = []
  /\ detect_size (Py.strip text) = Some "Large"
  /\ dict_get "Large" (prices pepperoni) = Some 1000
  /\ price_for_size pepperoni "Large" = Ok (Some (pepperoni, 1000, "Large"))
  /\ match_menu_item default_menu text = Ok (Some (pepperoni, 700, "Medium")).
Proof. repeat split; vm_compute; reflexivity. Qed.

End MenuResolver.

(** ** Zone resolver *)

Section ZoneResolver.

Lemma first_zone_in_hit (addr : string) (pre post : dict Z) (zone : string) (charge : Z) :
  Forall (fun zc => Py.contains (Py.lower (fst zc)) addr = false) pre ->
  Py.contains (Py.lower zone) addr = true ->
  first_zone_in addr (pre ++ (zone, charge) :: post) = Some (charge, zone).
Proof.
  intros Hpre Hhit. induction Hpre as [|[z c] pre Hz _ IH]; simpl.
  - now rewrite Hhit.
  - simpl in Hz. now rewrite Hz.
Qed.

Lemma first_zone_in_miss (addr : string) (zs : dict Z) :
  Forall (fun zc => Py.contains (Py.lower (fst zc)) addr = false) zs ->
  first_zone_in addr zs = None.
Proof.
  induction 1 as [|[z c] zs Hz _ IH]; simpl; [reflexivity|].
  simpl in Hz. now rewrite Hz.
Qed.

(** C3: the zone table is searched in its definition order with a
    case-insensitive substring test and the first hit wins: a zone that
    occurs in the address, with no earlier zone occurring in it, is the one
    returned, wherever later zones occur in the address; in particular of two
    zones named in the address the one defined first wins.  When no zone
    occurs in the address the first zone of the table and its fee are
    returned, not an error. *)
Theorem zone_resolution_first_defined_wins (zs : dict Z) (address_text : string) :
  (forall pre post zone charge,
      zs = (pre ++ (zone, charge) :: post)%list ->
      Forall (misses address_text) pre ->
      Py.contains (Py.lower zone) (Py.lower address_text) = true ->
      calculate_delivery_charge zs address_text = Ok (charge, zone))
  /\ (forall pre mid post z1 c1 z2 c2,
      zs = (pre ++ (z1, c1) :: mid ++ (z2, c2) :: post)%list ->
      Forall (misses address_text) pre ->
      Py.contains (Py.lower z1) (Py.lower address_text) = true ->
      Py.contains (Py.lower z2) (Py.lower address_text) = true ->
      calculate_delivery_charge zs address_text = Ok (c1, z1))
  /\ (forall zone charge rest,
      zs = (zone, charge) :: rest ->
      Forall (misses address_text) zs ->
      calculate_delivery_charge zs address_text = Ok (charge, zone)).
Proof.
  unfold calculate_delivery_charge, misses. repeat split.
  - intros pre post zone charge -> Hpre Hhit.
    now rewrite (first_zone_in_hit _ pre post zone charge Hpre Hhit).
  - intros pre mid post z1 c1 z2 c2 -> Hpre Hhit _.
    now rewrite (first_zone_in_hit _ pre _ z1 c1 Hpre Hhit).
  - intros zone charge rest -> Hmiss.
    now rewrite (first_zone_in_miss _ _ Hmiss).
Qed.

(** The built-in table on an address that names [Outskirts] before
    [City Center], and on an address that names no zone. *)
Lemma zone_resolution_first_defined_wins_witness :
  calculate_delivery_charge default_zones "Outskirts, on the road to City Center"
  = Ok (80, "City Center")
  /\ calculate_delivery_charge default_zones "Hilltop Farm, Canal Road" = Ok (80, "City Center").
Proof.
  split.
  - apply (proj1 (proj2 (zone_resolution_first_defined_wins default_zones
                           "Outskirts, on the road to City Center"))
             [] [("Fauji Colony", 100); ("Near DHQ", 120)] []
             "City Center" 80 "Outskirts" 150);
      [reflexivity | constructor | reflexivity | reflexivity].
  - apply (proj2 (proj2 (zone_resolution_first_defined_wins default_zones
                           "Hilltop Farm, Canal Road"))
             "City Center" 80
             [("Fauji Colony", 100); ("Near DHQ", 120); ("Outskirts", 150)]);
      [reflexivity | repeat constructor].
Defined.

(** An empty zone table makes the fallback raise. *)
Lemma empty_zone_table_raises (address_text : string) :
  calculate_delivery_charge [] address_text = Raise IndexError.
Proof. reflexivity. Qed.

End ZoneResolver.

(** ** Order store *)

Section OrderStore.

(** An [UPDATE] whose [WHERE] clause selects no row changes nothing and
    reports nothing. *)
Lemma sql_update_absent (oid : string) (f : order_row -> order_row) (w : world) :
  orders w !! oid = None -> sql_update (Some oid) f w = (Ok tt, w).
Proof.
  intros H. unfold sql_update, modify, set_orders.
  rewrite alter_id by (intros x Hx; congruence). now destruct w.
Qed.

Lemma sql_update_present (oid : string) (f : order_row -> order_row) (w : world) (r : order_row) :
  orders w !! oid = Some r ->
  sql_update (Some oid) f w = (Ok tt, set_orders (insert oid (f r)) w).
Proof.
  intros H. unfold sql_update, modify, set_orders. do 2 f_equal.
  apply map_eq. intros k. rewrite lookup_alter, lookup_insert.
  repeat case_decide; subst; try congruence; now rewrite ?H.
Qed.

(** C5: creating an order whose [order_id] is already stored fails, with
    SQLite's integrity error for the primary key (the code's DuplicateOrder),
    and the state is left as it was, so the stored record stays the
    original one. *)
Theorem persist_duplicate_fails (o : order) (w : world) (r : order_row) :
  orders w !! o_order_id o = Some r ->
  (exists e, persist_order_to_db o w = (Raise (IntegrityError e), w))
  /\ orders (snd (persist_order_to_db o w)) !! o_order_id o = Some r.
Proof.
  intros H. unfold persist_order_to_db, mbind, M_bind, bind, get_world, raise.
  rewrite H. split; [eexists; reflexivity | exact H].
Qed.

(** A second [create] with the id of a stored pickup order. *)
Lemma persist_duplicate_fails_witness :
  let o := Order "PH-0A1B2C3D" "923001234567" None [] 120 0 120 "cod"
             (Some "pending") (Some "confirmed") (Some "PICKUP") None None
             (Some "2026-01-05T10:00:00") None in
  let o' := Order "PH-0A1B2C3D" "923009999999" None [] 999 0 999 "cod"
              (Some "pending") (Some "confirmed") (Some "PICKUP") None None
              (Some "2026-01-05T10:05:00") None in
  let w := snd (persist_order_to_db o initial_world) in
  (exists e, persist_order_to_db o' w = (Raise (IntegrityError e), w))
  /\ orders (snd (persist_order_to_db o' w)) !! "PH-0A1B2C3D" = Some (row_of_order o).
Proof.
  cbv zeta.
  apply (persist_duplicate_fails
           (Order "PH-0A1B2C3D" "923009999999" None [] 999 0 999 "cod"
              (Some "pending") (Some "confirmed") (Some "PICKUP") None None
              (Some "2026-01-05T10:05:00") None)).
  vm_compute. reflexivity.
Defined.

(** A fresh id is stored with [verified_at] unset. *)
Lemma persist_fresh (o : order) (w : world) :
  orders w !! o_order_id o = None ->
  persist_order_to_db o w
  = (Ok tt, set_orders (insert (o_order_id o) (row_of_order o)) w).
Proof.
  intros H. unfold persist_order_to_db, mbind, M_bind, bind, get_world, modify.
  now rewrite H.
Qed.

(** The effect of [update_order_payment_status] on a stored order. *)
Lemma update_payment_present (w : world) (oid ps now : string) (ref : option string)
    (r : order_row) :
  orders w !! oid = Some r ->
  update_order_payment_status (Some oid) ps ref now w
  = (Ok tt,
     set_orders
       (insert oid
          (if Py.truthy_str ref
           then update_with_screenshot ps (default "" ref) now r
           else update_without_screenshot ps r)) w).
Proof.
  intros H. unfold update_order_payment_status.
  destruct (Py.truthy_str ref); now apply sql_update_present.
Qed.

(** C1: on a stored order, [update_order_payment_status] records the payment
    status and derives the order status from it: with a screenshot reference
    (a non-empty locator), [awaiting_verification] for [pending] and
    [confirmed] otherwise; with no reference, [confirmed] for [paid] and
    [pending] otherwise. *)
Theorem update_payment_status_rule (w : world) (oid ps now : string)
    (ref : option string) (r : order_row) :
  orders w !! oid = Some r ->
  exists r',
    update_order_payment_status (Some oid) ps ref now w
    = (Ok tt, set_orders (insert oid r') w)
    /\ r_payment_status r' = ps
    /\ (forall s, ref = Some s -> s <> "" ->
          (ps = "pending" -> r_status r' = "awaiting_verification")
          /\ (ps <> "pending" -> r_status r' = "confirmed"))
    /\ (ref = None ->
          (ps = "paid" -> r_status r' = "confirmed")
          /\ (ps <> "paid" -> r_status r' = "pending")).
Proof.
  intros H. eexists. split; [apply (update_payment_present _ _ _ _ _ _ H)|].
  split; [now destruct (Py.truthy_str ref)|]. split.
  - intros s -> Hs. unfold Py.truthy_str.
    destruct (String.eqb_spec s "") as [|_]; [contradiction|]. simpl.
    destruct (String.eqb_spec ps "pending"); split; congruence.
  - intros ->. simpl. destruct (String.eqb_spec ps "paid"); split; congruence.
Qed.

(** A screenshot uploaded for an online order that awaits payment. *)
Lemma update_payment_status_rule_witness :
  let o := Order "PH-0A1B2C3D" "923001234567" None [] 120 80 200 "online_manual"
             (Some "pending") (Some "awaiting_payment") (Some "12 City Center Rd")
             None None (Some "2026-01-05T10:00:00") None in
  let w := snd (persist_order_to_db o initial_world) in
  let ref := Some "data/uploads/PH-0A1B2C3D_proof.png" in
  exists r',
    update_order_payment_status (Some "PH-0A1B2C3D") "pending" ref "2026-01-05T10:07:00" w
    = (Ok tt, set_orders (insert "PH-0A1B2C3D" r') w)
    /\ r_payment_status r' = "pending"
    /\ (forall s, ref = Some s -> s <> "" ->
          ("pending" = "pending" -> r_status r' = "awaiting_verification")
          /\ ("pending" <> "pending" -> r_status r' = "confirmed"))
    /\ (ref = None ->
          ("pending" = "paid" -> r_status r' = "confirmed")
          /\ ("pending" <> "paid" -> r_status r' = "pending")).
Proof.
  cbv zeta.
  apply (update_payment_status_rule _ "PH-0A1B2C3D" "pending" "2026-01-05T10:07:00"
           (Some "data/uploads/PH-0A1B2C3D_proof.png")
           (row_of_order
              (Order "PH-0A1B2C3D" "923001234567" None [] 120 80 200 "online_manual"
                 (Some "pending") (Some "awaiting_payment") (Some "12 City Center Rd")
                 None None (Some "2026-01-05T10:00:00") None))).
  vm_compute. reflexivity.
Defined.

(** An empty reference is treated like a missing one. *)
Lemma update_payment_empty_reference (oid ps now : string) (w : world) :
  update_order_payment_status (Some oid) ps (Some "") now w
  = update_order_payment_status (Some oid) ps None now w.
Proof. reflexivity. Qed.

(** C6 (as the code has it): for an [order_id] that is not stored,
    [update_order_payment_status] completes normally and changes nothing;
    no error is raised. *)
Theorem update_payment_absent_is_silent (w : world) (oid ps now : string)
    (ref : option string) :
  orders w !! oid = None ->
  update_order_payment_status (Some oid) ps ref now w = (Ok tt, w).
Proof.
  intros H. unfold update_order_payment_status.
  destruct (Py.truthy_str ref); now apply sql_update_absent.
Qed.

(** An unknown id on the freshly started store: the call returns normally. *)
Lemma update_payment_unknown_id_returns :
  orders initial_world !! "PH-DEADBEEF" = None
  /\ update_order_payment_status (Some "PH-DEADBEEF") "paid" None
       "2026-01-05T10:00:00" initial_world
     = (Ok tt, initial_world).
Proof. split; reflexivity. Qed.

Lemma update_payment_absent_is_silent_witness :
  update_order_payment_status (Some "PH-DEADBEEF") "pending"
    (Some "data/uploads/PH-DEADBEEF_proof.png") "2026-01-05T10:00:00" initial_world
  = (Ok tt, initial_world).
Proof.
  apply (update_payment_absent_is_silent initial_world "PH-DEADBEEF").
  reflexivity.
Defined.

End OrderStore.

(** ** Conversation router *)

Section Router.

(** The keyword [menu] is one of the order-intent keywords of the first
    branch, so the second branch can never be taken. *)
Lemma menu_branch_unreachable (lower : string) :
  Py.any_in order_keywords lower = false ->
  String.eqb lower "menu" || Py.contains "show menu" lower = false.
Proof.
  unfold Py.any_in, order_keywords. cbn [existsb]. intros H.
  destruct (Py.contains "menu" lower) eqn:Hm.
  - rewrite orb_true_r in H. discriminate.
  - apply orb_false_iff. split.
    + destruct (String.eqb_spec lower "menu") as [->|]; [|reflexivity].
      now rewrite contains_refl in Hm.
    + destruct (Py.contains "show menu" lower) eqn:Hs; [|reflexivity].
      pose proof (contains_infix "show " "menu" "" lower) as Hi.
      cbn in Hi. rewrite Hi in Hm; [discriminate | exact Hs].
Qed.

(** Any text that lower-cases to [menu] is answered with the usage prompt. *)
Lemma route_menu_gets_usage_prompt (sender text uid now : string) (w : world) :
  Py.lower text = "menu" ->
  route sender (Some text) uid now w = send_whatsapp sender msg_usage_prompt w.
Proof.
  intros H. unfold route, mbind, M_bind, bind, get_world.
  change (default "" (Some text)) with text. rewrite H. reflexivity.
Qed.

(** C8 (code defect): a message whose body is exactly [menu] is caught by
    the first branch, whose keyword list contains [menu]; the reply is the
    usage prompt, and the catalog is not rendered. *)
Theorem menu_message_gets_usage_prompt :
  whatsapp_webhook (text_message "923001234567" "menu") "0A1B2C3D"
    "2026-01-05T10:00:00" initial_world
  = (Ok status_ok,
     set_outbox (fun _ => [("923001234567", msg_usage_prompt)]) initial_world)
  /\ msg_usage_prompt <> msg_menu default_menu.
Proof. split; [vm_compute; reflexivity | vm_compute; discriminate]. Qed.

Lemma truthy_sender (s : string) : s <> "" -> Py.truthy_str (Some s) = true.
Proof.
  intros H. unfold Py.truthy_str.
  now destruct (String.eqb_spec s EmptyString).
Qed.

Lemma py_or_sender (s : string) (y : option string) :
  s <> "" -> py_or (Some s) y = Some s.
Proof. intros H. unfold py_or. now rewrite truthy_sender. Qed.

(** A text message from a non-empty sender id goes through [route]. *)
Lemma webhook_text_message (sender text uid now : string) (w : world) :
  sender <> "" ->
  whatsapp_webhook (text_message sender text) uid now w
  = match route sender (Some text) uid now w with
    | (Ok _, w') => (Ok status_ok, w')
    | (Raise e, w') => (Raise e, w')
    end.
Proof.
  intros Hs. unfold whatsapp_webhook, text_message.
  cbn [p_from p_wa_id p_contact p_type p_text p_location p_loc].
  rewrite !py_or_sender, truthy_sender by assumption.
  reflexivity.
Qed.

(** Evaluate the tests of the cascade that do not depend on the state. *)
Ltac decide_tests :=
  repeat match goal with
         | |- context [if ?c then _ else _] =>
             let v := eval vm_compute in c in
             match v with
             | true => replace c with true by (vm_compute; reflexivity)
             | false => replace c with false by (vm_compute; reflexivity)
             end;
             cbv iota
         end.

Lemma route_pickup (sender uid now : string) (w : world) :
  route sender (Some "pickup") uid now w = handle_pickup sender uid now w.
Proof.
  unfold route, mbind, M_bind, bind, get_world. cbv beta iota zeta.
  decide_tests. reflexivity.
Qed.

(** An empty cart (no session, no [cart] key or an empty list) on [pickup]:
    the guidance text is sent; sessions, orders and rider threads stay as
    they were. *)
Lemma pickup_empty_cart_guides (w : world) (sender uid now : string) :
  sender <> "" ->
  nonempty_cart (sessions w !! sender) = None ->
  whatsapp_webhook (text_message sender "pickup") uid now w
  = (Ok status_ok,
     set_outbox (fun l => l ++ [(sender, msg_cart_empty_pickup)])%list w).
Proof.
  intros Hs Hc. rewrite webhook_text_message, route_pickup by assumption.
  unfold handle_pickup, mbind, M_bind, bind, get_world. now rewrite Hc.
Qed.

(** A cart with items but no cached [subtotal] on [pickup]: [KeyError]. *)
Lemma pickup_without_subtotal_raises (w : world) (sender uid now : string)
    (sess : session) (i : item) (cart : list item) :
  sender <> "" ->
  sessions w !! sender = Some sess ->
  s_cart sess = Some (i :: cart) ->
  s_subtotal sess = None ->
  whatsapp_webhook (text_message sender "pickup") uid now w
  = (Raise (KeyError "subtotal"), w).
Proof.
  intros Hs Hw Hc Hsub. rewrite webhook_text_message, route_pickup by assumption.
  unfold handle_pickup, mbind, M_bind, bind, get_world, nonempty_cart.
  now rewrite Hw, Hc, Hsub.
Qed.

(** C10 (code defect): routing can raise.  After [fries] has put one item in
    the cart, [pickup] reads [sess['subtotal']], which only [checkout]
    stores: the request ends in [KeyError] with no reply and no order. *)
Theorem pickup_after_item_raises :
  let sender := "923001234567" in
  let w1 := snd (whatsapp_webhook (text_message sender "fries") "0A1B2C3D"
                   "2026-01-05T10:00:00" initial_world) in
  let r := whatsapp_webhook (text_message sender "pickup") "0A1B2C3D"
             "2026-01-05T10:01:00" w1 in
  (s_cart <$> sessions w1 !! sender)
  = Some (Some [Item (Some "Fries") (Some "OneSize") (Some 120) (Some 1)])
  /\ fst r = Raise (KeyError "subtotal")
  /\ outbox (snd r) = outbox w1
  /\ orders (snd r) = ∅.
Proof. repeat split; vm_compute; reflexivity. Qed.

(** C4 (code defect): the stored total drifts from the stored items.
    [checkout] caches the subtotal of a one-item cart; a second item added
    afterwards does not refresh it; [pickup] stores both items with the
    stale subtotal.  The row satisfies [total = subtotal + delivery_charges]
    (120 = 120 + 0) but the items add up to 370. *)
Theorem stale_subtotal_drifts_from_items :
  let msgs := [Inbound "fries" "0A1B2C3D" "2026-01-05T10:00:00";
               Inbound "checkout" "0A1B2C3D" "2026-01-05T10:01:00";
               Inbound "pepsi" "0A1B2C3D" "2026-01-05T10:02:00";
               Inbound "pickup" "0A1B2C3D" "2026-01-05T10:03:00"] in
  let r := converse "923001234567" msgs initial_world in
  fst r = Ok tt
  /\ exists row, orders (snd r) !! "PH-0A1B2C3D" = Some row
       /\ r_items_json row
          = [Item (Some "Fries") (Some "OneSize") (Some 120) (Some 1);
             Item (Some "Pepsi 1.5L") (Some "OneSize") (Some 250) (Some 1)]
       /\ r_subtotal row = 120 /\ r_delivery_charges row = 0 /\ r_total row = 120
       /\ recomputed_total row = 370.
Proof.
  cbv zeta. split; [vm_compute; reflexivity|].
  eexists. split; [vm_compute; reflexivity|]. repeat split.
Qed.

End Router.

(** ** Manual verification *)

Section Verification.

(** What [verify_order] with [verified = true] does to a stored order: the
    customer is told, the row gets [payment_status = paid] and
    [status = confirmed], and one rider thread is started with the order id,
    the phone and the stored items, address and total.  Every other column,
    [verified_at] included, keeps its value. *)
Lemma verify_order_confirms (w : world) (oid now : string) (r : order_row) :
  orders w !! oid = Some r ->
  verify_order (VerifyRequest (Some oid) true) now w
  = (Ok (Response 200 [("status", JStr "verified")]),
     World (sessions w)
       (<[oid := set_status "confirmed" (update_without_screenshot "paid" r)]> (orders w))
       (outbox w ++ [(r_customer_phone r, msg_payment_verified oid)])
       (rider_threads w
        ++ [RiderOrder oid (r_customer_phone r) (r_items_json r) (r_address r) (r_total r)])
       (menu w) (zones w)).
Proof.
  intros H. unfold verify_order, sql_select, mbind, M_bind, bind, get_world, mret, M_ret, ret.
  cbn [v_order_id v_verified option_bind]. rewrite H.
  unfold update_order_payment_status. cbn [Py.truthy_str].
  rewrite (sql_update_present _ _ _ _ H).
  unfold send_whatsapp, modify, sql_update, set_outbox, set_orders, start_notify_rider,
    set_rider_threads.
  cbn [orders sessions outbox rider_threads menu zones option_bind fmt_opt default
       from_option id].
  unfold modify. cbv beta iota. cbn [orders]. rewrite alter_insert_eq, lookup_insert_eq.
  cbv beta iota. cbn [orders sessions outbox rider_threads menu zones].
  reflexivity.
Qed.

Lemma verify_order_keeps_verified_at (w : world) (oid now : string) (r : order_row) :
  orders w !! oid = Some r ->
  r_verified_at <$> orders (snd (verify_order (VerifyRequest (Some oid) true) now w)) !! oid
  = Some (r_verified_at r).
Proof.
  intros H. rewrite (verify_order_confirms _ _ _ _ H). cbn [snd orders].
  now rewrite lookup_insert_eq.
Qed.

(** The screenshot branch is the only writer of [verified_at]. *)
Lemma screenshot_update_stamps_verified_at (ps path now : string) (r : order_row) :
  r_verified_at (update_with_screenshot ps path now r) = Some now
  /\ r_verified_at (update_without_screenshot ps r) = r_verified_at r
  /\ r_verified_at (set_status ps r) = r_verified_at r.
Proof. repeat split. Qed.

(** C7 (code defect): the admin-verified path on an online order that
    awaits payment.  The row ends with [payment_status = paid] and
    [status = confirmed], and the rider thread gets the stored items,
    address and total, but [verified_at] is still unset: the path goes
    through the [UPDATE] without screenshot, which does not write it. *)
Theorem verify_order_leaves_verified_at_unset :
  let msgs := [Inbound "fries" "0A1B2C3D" "2026-01-05T10:00:00";
               Inbound "checkout" "0A1B2C3D" "2026-01-05T10:01:00";
               Inbound "address: 12 City Center Rd" "0A1B2C3D" "2026-01-05T10:02:00";
               Inbound "online" "0A1B2C3D" "2026-01-05T10:03:00"] in
  let w1 := snd (converse "923001234567" msgs initial_world) in
  let r := verify_order (VerifyRequest (Some "PH-0A1B2C3D") true) "2026-01-05T10:30:00" w1 in
  (r_status <$> orders w1 !! "PH-0A1B2C3D") = Some "awaiting_payment"
  /\ fst r = Ok (Response 200 [("status", JStr "verified")])
  /\ exists row, orders (snd r) !! "PH-0A1B2C3D" = Some row
       /\ r_payment_status row = "paid"
       /\ r_status row = "confirmed"
       /\ r_verified_at row = None
       /\ rider_threads (snd r)
          = [RiderOrder "PH-0A1B2C3D" "923001234567" (r_items_json row)
               (r_address row) (r_total row)].
Proof.
  cbv zeta. split; [vm_compute; reflexivity|]. split; [vm_compute; reflexivity|].
  eexists. split; [vm_compute; reflexivity|]. repeat split.
Qed.

End Verification.

(** ** [difflib]: the work-list loop terminates

    [matches] runs [blocks_loop] with [2 * len(a) + 2] units of fuel.  A
    block returned by [find_longest_match] lies inside the [a] range it was
    asked about, so every entry popped from the queue is replaced by entries
    over strictly less of [a], and the fuel is never exhausted. *)

Section DifflibTermination.

Local Open Scope nat_scope.

Lemma j2lenget_bound (m : list (nat * nat)) (j n : nat) :
  Forall (fun p => snd p <= n) m -> difflib.j2lenget m j <= n.
Proof.
  intros Hm. destruct j as [|j]; simpl; [lia|].
  induction Hm as [|p m Hp _ IH]; simpl; [lia|].
  destruct (fst p =? j); [exact Hp | exact IH].
Qed.

(** One row keeps every run inside [alo .. i]. *)
Lemma scan_row_inv (alo blo bhi i : nat) (j2len : list (nat * nat)) :
  alo <= i ->
  Forall (fun p => snd p <= i - alo) j2len ->
  forall js newj best newj' best',
    Forall (fun p => snd p <= i + 1 - alo) newj ->
    alo <= fst (fst best) /\ fst (fst best) + snd best <= i + 1 ->
    difflib.scan_row js blo bhi i j2len newj best = (newj', best') ->
    Forall (fun p => snd p <= i + 1 - alo) newj'
    /\ alo <= fst (fst best') /\ fst (fst best') + snd best' <= i + 1.
Proof.
  intros Hi Hold js. induction js as [|j js IH]; intros newj best newj' best' Hnew Hbest E.
  - simpl in E. inversion E; subst. auto.
  - simpl in E. destruct (j <? blo); [now apply (IH _ _ _ _ Hnew Hbest)|].
    destruct (bhi <=? j); [inversion E; subst; auto|].
    pose proof (j2lenget_bound j2len j _ Hold) as Hk.
    apply IH in E; [exact E | |].
    + constructor; [simpl; lia | exact Hnew].
    + destruct (snd best <? S (difflib.j2lenget j2len j)); [simpl; lia | exact Hbest].
Qed.

(** All rows from [i0] on keep the best block inside [alo .. i0 + n]. *)
Lemma scan_rows_inv (a b : list ascii) (alo blo bhi n : nat) :
  forall i0 j2len best,
    alo <= i0 ->
    Forall (fun p => snd p <= i0 - alo) j2len ->
    alo <= fst (fst best) /\ fst (fst best) + snd best <= i0 ->
    let best' := difflib.scan_rows (seq i0 n) a b blo bhi j2len best in
    alo <= fst (fst best') /\ fst (fst best') + snd best' <= i0 + n.
Proof.
  induction n as [|n IH]; intros i0 j2len best Hi Hold Hbest; cbn zeta.
  - simpl. lia.
  - simpl. destruct (a !! i0) as [x|]; [|lia].
    destruct (difflib.scan_row (difflib.b2j b x) blo bhi i0 j2len [] best)
      as [newj best1] eqn:E.
    apply (scan_row_inv alo) in E; [| lia | exact Hold | constructor | lia].
    destruct E as (Hnew & Hb1 & Hb2).
    specialize (IH (S i0) newj best1).
    cbn zeta in IH. replace (i0 + S n) with (S i0 + n) by lia.
    apply IH; [lia | | lia].
    eapply Forall_impl; [exact Hnew|]. intros p Hp. simpl in Hp. lia.
Qed.

Lemma extend_left_inv (a b : list ascii) (alo blo : nat) :
  forall besti bestj bestsize,
    alo <= besti ->
    let r := difflib.extend_left a b alo blo besti bestj bestsize in
    alo <= fst (fst r) /\ fst (fst r) + snd r = besti + bestsize.
Proof.
  induction besti as [|i IH]; intros bestj bestsize Hlo; cbn zeta.
  - simpl. lia.
  - simpl. destruct bestj as [|j]; [simpl; lia|].
    destruct ((alo <? S i) && (blo <? S j) && bool_decide (a !! i = b !! j)) eqn:E;
      [|simpl; lia].
    apply andb_true_iff in E as [E _]. apply andb_true_iff in E as [E _].
    apply Nat.ltb_lt in E.
    specialize (IH j (S bestsize)). cbn zeta in IH.
    destruct IH as [H1 H2]; [lia|]. split; [exact H1 | lia].
Qed.

Lemma extend_right_inv (a b : list ascii) (ahi bhi besti bestj : nat) :
  forall fuel bestsize,
    let r := difflib.extend_right fuel a b ahi bhi besti bestj bestsize in
    fst (fst r) = besti /\ bestsize <= snd r
    /\ (besti + bestsize <= ahi -> besti + snd r <= ahi).
Proof.
  induction fuel as [|fuel IH]; intros bestsize; cbn zeta.
  - simpl. lia.
  - simpl.
    destruct ((besti + bestsize <? ahi) && (bestj + bestsize <? bhi)
              && bool_decide (a !! (besti + bestsize) = b !! (bestj + bestsize))) eqn:E;
      [|simpl; lia].
    apply andb_true_iff in E as [E _]. apply andb_true_iff in E as [E _].
    apply Nat.ltb_lt in E.
    specialize (IH (S bestsize)). cbn zeta in IH. lia.
Qed.

(** A non-empty block found in [alo .. ahi] lies in that range. *)
Lemma find_longest_match_bounds (a b : list ascii) (alo ahi blo bhi i j k : nat) :
  difflib.find_longest_match a b alo ahi blo bhi = (i, j, k) ->
  k <> 0 -> alo <= i /\ i + k <= ahi.
Proof.
  unfold difflib.find_longest_match. intros E Hk.
  pose proof (scan_rows_inv a b alo blo bhi (ahi - alo) alo [] (alo, blo, 0)) as H0.
  cbn zeta in H0.
  destruct (difflib.scan_rows (seq alo (ahi - alo)) a b blo bhi [] (alo, blo, 0))
    as [[i1 j1] k1].
  simpl in H0. destruct H0 as [H1 H2]; [lia | constructor | lia |].
  pose proof (extend_left_inv a b alo blo i1 j1 k1 H1) as H3. cbn zeta in H3.
  destruct (difflib.extend_left a b alo blo i1 j1 k1) as [[i2 j2] k2].
  simpl in H3. destruct H3 as [H3 H4].
  pose proof (extend_right_inv a b ahi bhi i2 j2 (ahi - (i2 + k2)) k2) as H5.
  cbn zeta in H5. rewrite E in H5. simpl in H5. destruct H5 as (-> & H6 & H7).
  split; [exact H3|].
  destruct (Nat.le_gt_cases alo ahi) as [Hle|Hgt]; [lia|].
  (* an empty range: nothing was scanned and nothing can be extended *)
  exfalso. apply Hk. clear Hk.
  replace (ahi - alo) with 0 in H2 by lia.
  assert (ahi - (i2 + k2) = 0) as Hz by lia. rewrite Hz in E.
  simpl in E. inversion E; subst. lia.
Qed.

Lemma blocks_loop_enough_fuel (a b : list ascii) :
  forall fuel queue m,
    queue_weight queue <= fuel -> is_Some (difflib.blocks_loop fuel a b queue m).
Proof.
  induction fuel as [|fuel IH]; intros queue m Hw.
  - destruct queue as [|[[[alo ahi] blo] bhi] queue]; [now eexists|].
    simpl in Hw. lia.
  - destruct queue as [|[[[alo ahi] blo] bhi] queue]; [now eexists|].
    simpl in Hw. simpl.
    destruct (difflib.find_longest_match a b alo ahi blo bhi) as [[i j] k] eqn:E.
    destruct (Nat.eqb_spec k 0) as [|Hk]; [apply IH; lia|].
    destruct (find_longest_match_bounds _ _ _ _ _ _ _ _ _ E Hk) as [H1 H2].
    apply IH.
    destruct ((alo <? i) && (blo <? j)), ((i + k <? ahi) && (j + k <? bhi));
      simpl; lia.
Qed.

(** [matches] is the value the loop computes: the fuel suffices. *)
Lemma matches_total (a b : list ascii) :
  difflib.blocks_loop (2 * length a + 2) a b [(0, length a, 0, length b)] 0
  = Some (difflib.matches a b).
Proof.
  unfold difflib.matches.
  destruct (blocks_loop_enough_fuel a b (2 * length a + 2)
              [(0, length a, 0, length b)] 0) as [n ->]; [simpl; lia | reflexivity].
Qed.

End DifflibTermination.

(** ** The stored total never changes and always adds up *)

Section OrderTotals.

Lemma frozen_refl (r : order_row) : frozen r r.
Proof. repeat split. Qed.

Lemma frozen_trans (r1 r2 r3 : order_row) : frozen r1 r2 -> frozen r2 r3 -> frozen r1 r3.
Proof. unfold frozen. intuition congruence. Qed.

Lemma frozen_consistent (r r' : order_row) : frozen r r' -> consistent r -> consistent r'.
Proof. unfold frozen, consistent. intuition congruence. Qed.

Lemma evolves_refl (m : gmap string order_row) : evolves m m.
Proof. intros oid. destruct (m !! oid); [apply frozen_refl | exact I]. Qed.

Lemma evolves_trans (m1 m2 m3 : gmap string order_row) :
  evolves m1 m2 -> evolves m2 m3 -> evolves m1 m3.
Proof.
  intros H12 H23 oid. specialize (H12 oid). specialize (H23 oid).
  destruct (m1 !! oid), (m2 !! oid), (m3 !! oid); try easy.
  - eapply frozen_trans; eassumption.
  - eapply frozen_consistent; eassumption.
Qed.

Lemma evolves_alter (f : order_row -> order_row) (oid : string) (m : gmap string order_row) :
  (forall r, frozen r (f r)) -> evolves m (alter f oid m).
Proof.
  intros Hf k. rewrite lookup_alter. case_decide; subst.
  - destruct (m !! k); [apply Hf | exact I].
  - destruct (m !! k); [apply frozen_refl | exact I].
Qed.

Lemma evolves_insert_fresh (oid : string) (r : order_row) (m : gmap string order_row) :
  m !! oid = None -> consistent r -> evolves m (<[oid := r]> m).
Proof.
  intros Hm Hr k. rewrite lookup_insert. case_decide; subst.
  - now rewrite Hm.
  - destruct (m !! k); [apply frozen_refl | exact I].
Qed.

Lemma keeps_ret {A : Type} (a : A) : keeps_orders (ret a).
Proof. intros w. apply evolves_refl. Qed.

Lemma keeps_mret {A : Type} (a : A) : keeps_orders (mret a : M A).
Proof. intros w. apply evolves_refl. Qed.

Lemma keeps_raise {A : Type} (e : exn) : keeps_orders (@raise A e).
Proof. intros w. apply evolves_refl. Qed.

Lemma keeps_lift {A : Type} (o : outcome A) : keeps_orders (lift o).
Proof. intros w. apply evolves_refl. Qed.

Lemma keeps_get_world : keeps_orders get_world.
Proof. intros w. apply evolves_refl. Qed.

Lemma keeps_modify (f : world -> world) :
  (forall w, orders (f w) = orders w) -> keeps_orders (modify f).
Proof. intros Hf w. simpl. rewrite Hf. apply evolves_refl. Qed.

Lemma keeps_bind {A B : Type} (c : M A) (k : A -> M B) :
  keeps_orders c -> (forall a, keeps_orders (k a)) -> keeps_orders (c ≫= k).
Proof.
  intros Hc Hk w. unfold mbind, M_bind, bind. specialize (Hc w).
  destruct (c w) as [[a|e] w1]; simpl in *; [|exact Hc].
  eapply evolves_trans; [exact Hc | apply Hk].
Qed.

Lemma keeps_send_whatsapp (to text : string) : keeps_orders (send_whatsapp to text).
Proof. now apply keeps_modify. Qed.

Lemma keeps_start_notify_rider (o : rider_order) : keeps_orders (start_notify_rider o).
Proof. now apply keeps_modify. Qed.

Lemma keeps_mutate (sender : string) (f : session -> session) :
  keeps_orders (mutate sender f).
Proof. now apply keeps_modify. Qed.

Lemma keeps_set_sessions (f : gmap string session -> gmap string session) :
  keeps_orders (modify (set_sessions f)).
Proof. now apply keeps_modify. Qed.

Lemma keeps_sql_update (oid : option string) (f : order_row -> order_row) :
  (forall r, frozen r (f r)) -> keeps_orders (sql_update oid f).
Proof.
  intros Hf w. destruct oid as [oid|]; simpl; [|apply evolves_refl].
  now apply evolves_alter.
Qed.

Lemma keeps_persist (o : order) :
  o_total o = o_subtotal o + o_delivery_charges o -> keeps_orders (persist_order_to_db o).
Proof.
  intros Ho w. unfold persist_order_to_db, mbind, M_bind, bind, get_world.
  destruct (orders w !! o_order_id o) eqn:E; simpl; [apply evolves_refl|].
  now apply evolves_insert_fresh.
Qed.

Lemma keeps_update_payment (oid : option string) (ps : string) (ref : option string)
    (now : string) :
  keeps_orders (update_order_payment_status oid ps ref now).
Proof.
  unfold update_order_payment_status.
  destruct (Py.truthy_str ref); apply keeps_sql_update; intros r; repeat split.
Qed.

(** Walk through a handler, one statement at a time. *)
Ltac keeps :=
  repeat first
    [ progress cbv zeta
    | apply keeps_ret | apply keeps_mret | apply keeps_raise | apply keeps_lift
    | apply keeps_get_world | apply keeps_send_whatsapp | apply keeps_mutate
    | apply keeps_start_notify_rider | apply keeps_set_sessions
    | apply keeps_update_payment
    | apply keeps_sql_update; intros ?; repeat split
    | apply keeps_persist; simpl; lia
    | apply keeps_bind; [|intros ?]
    | match goal with
      | |- keeps_orders (match ?x with _ => _ end) => destruct x
      end ].

Lemma keeps_setdefault (sender : string) (dflt : session) :
  keeps_orders (setdefault sender dflt).
Proof. unfold setdefault. keeps. Qed.

Lemma keeps_sql_select (oid : option string) : keeps_orders (sql_select oid).
Proof. unfold sql_select. keeps. Qed.

Lemma keeps_route (sender : string) (text : option string) (uid now : string) :
  keeps_orders (route sender text uid now).
Proof.
  unfold route, handle_item, handle_checkout, handle_cod, handle_pickup,
    handle_address, handle_online, handle_track.
  keeps; try apply keeps_setdefault; try apply keeps_sql_select; keeps.
Qed.

Lemma keeps_serve (rq : request) : keeps_orders (serve rq).
Proof.
  destruct rq; simpl.
  - unfold whatsapp_webhook.
    keeps; try apply keeps_route; try apply keeps_setdefault; keeps.
  - unfold http_create_order. keeps.
  - unfold upload_screenshot. keeps.
  - unfold verify_order. keeps; try apply keeps_sql_select; keeps.
  - unfold payment_webhook. keeps; try apply keeps_sql_select; keeps.
  - unfold upload_delivery_charges. keeps.
Qed.

Lemma serve_all_evolves (rqs : list request) (w : world) :
  evolves (orders w) (orders (serve_all rqs w)).
Proof.
  revert w. induction rqs as [|rq rqs IH]; intros w; simpl.
  - apply evolves_refl.
  - eapply evolves_trans; [apply keeps_serve | apply IH].
Qed.

(** X7: Whatever requests are served, a stored order stays stored, and only
    its [payment_status], [status], [verified_at] and [screenshot_path] can
    differ from what was inserted: items, subtotal, delivery charge, total,
    customer, payment method, address and creation time are never rewritten. *)
Lemma stored_total_immutable (rqs : list request) (w : world) (oid : string) (r : order_row) :
  orders w !! oid = Some r ->
  exists r', orders (serve_all rqs w) !! oid = Some r' /\ frozen r r'.
Proof.
  intros H. pose proof (serve_all_evolves rqs w oid) as He. rewrite H in He.
  destruct (orders (serve_all rqs w) !! oid) as [r'|]; [|contradiction].
  now exists r'.
Qed.

(** X8: As long as [total = subtotal + delivery_charges] holds for every stored
    row to begin with, it holds for every stored row after any sequence of
    requests: every endpoint that inserts a row computes the total that way
    and no endpoint rewrites the money columns. *)
Lemma stored_total_adds_up (rqs : list request) (w : world) :
  (forall oid r, orders w !! oid = Some r -> consistent r) ->
  forall oid r, orders (serve_all rqs w) !! oid = Some r -> consistent r.
Proof.
  intros Hw oid r H. pose proof (serve_all_evolves rqs w oid) as He. rewrite H in He.
  destruct (orders w !! oid) as [r0|] eqn:E; [|exact He].
  eapply frozen_consistent; [exact He | now apply (Hw oid)].
Qed.

End OrderTotals.

(** ** Menu resolver: what a result can be *)

Section ResolverResults.

(** X1: The size loop yields nothing or one of five labels; [Small] is not one
    of them, and neither is any lower-case or mixed-case form. *)
Theorem detect_size_values (text : string) :
  detect_size text
  ∈ [None; Some "Large"; Some "Medium"; Some "L"; Some "M"; Some "S"].
Proof.
  destruct (detect_size text) as [size|] eqn:E; [|constructor].
  apply detect_size_range in E. rewrite !elem_of_cons, elem_of_nil in E.
  rewrite !elem_of_cons. destruct E as [->|[->|[->|[->|[->|[]]]]]]; tauto.
Qed.

Lemma dict_get_head {V : Type} (k : string) (v : V) (d : dict V) :
  dict_get k ((k, v) :: d) = Some v.
Proof. unfold dict_get. simpl. now rewrite String.eqb_refl. Qed.

Lemma first_price_result (it : menu_item) (r : outcome (option (menu_item * Z * string))) :
  first_price it = r ->
  match r with
  | Ok (Some (it', p, size)) => it' = it /\ dict_get size (prices it) = Some p
  | Ok None => False
  | Raise e => e = StopIteration /\ prices it = []
  end.
Proof.
  intros <-. unfold first_price. destruct (prices it) as [|[k v] d]; [easy|].
  split; [reflexivity | apply dict_get_head].
Qed.

Lemma price_default_result (it : menu_item) :
  match price_default it with
  | Ok (Some (it', p, size)) => it' = it /\ dict_get size (prices it) = Some p
  | Ok None => False
  | Raise e => e = StopIteration /\ prices it = []
  end.
Proof.
  unfold price_default.
  destruct (dict_get "Medium" (prices it)) eqn:E1; [easy|].
  destruct (dict_get "OneSize" (prices it)) eqn:E2; [easy|].
  now apply first_price_result.
Qed.

Lemma price_for_size_result (it : menu_item) (size : string) :
  match price_for_size it size with
  | Ok (Some (it', p, size')) => it' = it /\ dict_get size' (prices it) = Some p
  | Ok None => False
  | Raise e => e = StopIteration /\ prices it = []
  end.
Proof.
  unfold price_for_size.
  destruct (dict_get size (prices it)) eqn:E0; [easy|].
  destruct (dict_get "OneSize" (prices it)) eqn:E1; [easy|].
  destruct (dict_get "Medium" (prices it)) eqn:E2; [easy|].
  now apply first_price_result.
Qed.

(** The shape of every result of [match_menu_item]: a found item is an item
    of the catalog, returned with the price its own table gives for the
    returned size label; the only exception is [StopIteration], raised for a
    catalog item whose price table is empty. *)
Lemma match_menu_item_result (items : list menu_item) (text : string) :
  match match_menu_item items text with
  | Ok (Some (it, p, size)) => it ∈ items /\ dict_get size (prices it) = Some p
  | Ok None => True
  | Raise e => e = StopIteration /\ exists it, it ∈ items /\ prices it = []
  end.
Proof.
  assert (forall (f : menu_item -> bool) it
            (r : outcome (option (menu_item * Z * string))),
            find f items = Some it ->
            match r with
            | Ok (Some (it', p, size)) => it' = it /\ dict_get size (prices it) = Some p
            | Ok None => False
            | Raise e => e = StopIteration /\ prices it = []
            end ->
            match r with
            | Ok (Some (it, p, size)) => it ∈ items /\ dict_get size (prices it) = Some p
            | Ok None => True
            | Raise e => e = StopIteration /\ exists it, it ∈ items /\ prices it = []
            end) as Hlift.
  { intros f it r Hf Hr. apply find_some in Hf as [Hin _].
    apply list_elem_of_In in Hin.
    destruct r as [[[[it' p] size]|]|e]; [| exact I |].
    - destruct Hr as [-> Hp]. now split.
    - destruct Hr as [-> Hp]. split; [reflexivity | now exists it]. }
  assert (match substring_fallback items (Py.strip text) with
          | Ok (Some (it, p, size)) => it ∈ items /\ dict_get size (prices it) = Some p
          | Ok None => True
          | Raise e => e = StopIteration /\ exists it, it ∈ items /\ prices it = []
          end) as Hfb.
  { unfold substring_fallback.
    destruct (find _ items) as [it|] eqn:Hf; [|exact I].
    apply (Hlift _ it _ Hf), price_default_result. }
  unfold match_menu_item.
  destruct (difflib.get_close_matches _ _) as [|m rest]; [exact Hfb|].
  destruct (find (fun it => String.eqb (name it) m) items) as [it|] eqn:Hf; [|exact Hfb].
  destruct (detect_size (Py.strip text)) as [size|].
  - apply (Hlift _ it _ Hf), price_for_size_result.
  - apply (Hlift _ it _ Hf), price_default_result.
Qed.

(** X2: A resolved item belongs to the catalog and its returned price is the
    one its own price table gives for the returned size label. *)
Theorem match_menu_item_sound (items : list menu_item) (text size : string)
    (it : menu_item) (p : Z) :
  match_menu_item items text = Ok (Some (it, p, size)) ->
  it ∈ items /\ dict_get size (prices it) = Some p.
Proof.
  intros H. pose proof (match_menu_item_result items text) as Hr.
  now rewrite H in Hr.
Qed.

Lemma match_menu_item_sound_witness :
  chicken_tikka ∈ default_menu /\ dict_get "Large" (prices chicken_tikka) = Some 950.
Proof.
  apply (match_menu_item_sound default_menu "large chicken tikka").
  vm_compute. reflexivity.
Defined.

(** X3: [match_menu_item] raises nothing but [StopIteration], and only when
    some catalog item has an empty price table. *)
Theorem match_menu_item_raises_only_on_empty_prices (items : list menu_item)
    (text : string) (e : exn) :
  match_menu_item items text = Raise e ->
  e = StopIteration /\ exists it, it ∈ items /\ prices it = [].
Proof.
  intros H. pose proof (match_menu_item_result items text) as Hr.
  now rewrite H in Hr.
Qed.

Lemma match_menu_item_raises_only_on_empty_prices_witness :
  StopIteration = StopIteration
  /\ exists it, it ∈ [MenuItem "Garlic Bread" []] /\ prices it = [].
Proof.
  apply (match_menu_item_raises_only_on_empty_prices
           [MenuItem "Garlic Bread" []] "garlic bread please").
  vm_compute. reflexivity.
Defined.


(** X4: A text that contains a catalog name, in any case, is never answered
    with "not found": either the fuzzy pass or the substring pass resolves
    it to some item (or the resolution raises, for an item without prices). *)
Theorem contained_name_is_resolved (items : list menu_item) (text : string)
    (it : menu_item) :
  it ∈ items ->
  Py.contains (Py.lower (name it)) (Py.lower (Py.strip text)) = true ->
  match match_menu_item items text with
  | Ok None => False
  | Ok (Some _) | Raise _ => True
  end.
Proof.
  intros Hin Hc.
  assert (match substring_fallback items (Py.strip text) with
          | Ok None => False
          | Ok (Some _) | Raise _ => True
          end) as Hfb.
  { unfold substring_fallback.
    destruct (find _ items) as [it'|] eqn:Hf.
    - pose proof (price_default_result it') as Hr.
      now destruct (price_default it') as [[r|]|e].
    - apply list_elem_of_In in Hin.
      pose proof (find_none _ _ Hf it Hin) as Hn. simpl in Hn. congruence. }
  unfold match_menu_item.
  destruct (difflib.get_close_matches _ _) as [|m rest]; [exact Hfb|].
  destruct (find (fun it => String.eqb (name it) m) items) as [it'|]; [|exact Hfb].
  destruct (detect_size (Py.strip text)) as [size|].
  - pose proof (price_for_size_result it' size) as Hr.
    now destruct (price_for_size it' size) as [[r|]|e].
  - pose proof (price_default_result it') as Hr.
    now destruct (price_default it') as [[r|]|e].
Qed.

Lemma contained_name_is_resolved_witness :
  match match_menu_item default_menu
          "two boxes of FRIES for the kids and nothing else today thanks" with
  | Ok None => False
  | Ok (Some _) | Raise _ => True
  end.
Proof.
  apply (contained_name_is_resolved default_menu _ fries);
    [unfold default_menu; rewrite !elem_of_cons; tauto | vm_compute; reflexivity].
Defined.

End ResolverResults.

(** ** Zone resolver: what a result can be *)

Section ZoneResults.

Lemma first_zone_in_entry (addr : string) (zs : dict Z) (c : Z) (z : string) :
  first_zone_in addr zs = Some (c, z) -> (z, c) ∈ zs.
Proof.
  induction zs as [|[zone charge] zs IH]; simpl; [discriminate|].
  destruct (Py.contains (Py.lower zone) addr).
  - intros [= <- <-]. apply elem_of_cons. now left.
  - intros H. apply elem_of_cons. right. now apply IH.
Qed.

(** X5: Every answer of [calculate_delivery_charge] is an entry of the zone
    table, fee and name together, and the only failure is [IndexError] on an
    empty table: with at least one zone configured an address always gets a
    fee. *)
Theorem delivery_charge_is_table_entry (zs : dict Z) (address_text : string) :
  match calculate_delivery_charge zs address_text with
  | Ok (charge, zone) => (zone, charge) ∈ zs
  | Raise e => e = IndexError /\ zs = []
  end.
Proof.
  unfold calculate_delivery_charge.
  destruct (first_zone_in (Py.lower address_text) zs) as [[c z]|] eqn:E.
  - now apply first_zone_in_entry in E.
  - destruct zs as [|[zone charge] rest]; [easy|]. apply elem_of_cons. now left.
Qed.

Lemma lower_char_idempotent (c : ascii) : Py.lower_char (Py.lower_char c) = Py.lower_char c.
Proof. destruct c as [[] [] [] [] [] [] [] []]; reflexivity. Qed.

Lemma lower_idempotent (s : string) : Py.lower (Py.lower s) = Py.lower s.
Proof.
  induction s as [|c s IH]; [reflexivity|].
  unfold Py.lower in *. simpl. now rewrite lower_char_idempotent, IH.
Qed.

(** X6: Zone resolution reads the address case-insensitively: an address and
    its lower-cased form get the same fee and zone, whatever the table. *)
Theorem delivery_charge_ignores_case (zs : dict Z) (address_text : string) :
  calculate_delivery_charge zs (Py.lower address_text)
  = calculate_delivery_charge zs address_text.
Proof. unfold calculate_delivery_charge. now rewrite lower_idempotent. Qed.

End ZoneResults.

(** ** Endpoints that update or create orders *)

(** Run the monadic plumbing of a handler. *)
Ltac run :=
  repeat progress
    (unfold sql_select, sql_update, send_whatsapp, start_notify_rider;
     unfold mbind, M_bind, bind, mret, M_ret, ret, get_world, modify, raise, lift;
     unfold set_outbox, set_orders, set_rider_threads, set_sessions;
     cbn [orders sessions outbox rider_threads menu zones option_bind];
     cbv beta iota).

Section Endpoints.

(** X10: [verify_order] with [verified = false] on a stored order: the payment is
    marked [failed] and the order status falls back to [pending], whatever
    it was (a confirmed order included); the customer is told, no rider is
    notified and no other column changes. *)
Theorem verify_order_rejects (w : world) (oid now : string) (r : order_row) :
  orders w !! oid = Some r ->
  let r' := update_without_screenshot "failed" r in
  verify_order (VerifyRequest (Some oid) false) now w
  = (Ok (Response 200 [("status", JStr "failed")]),
     World (sessions w) (<[oid := r']> (orders w))
       (outbox w ++ [(r_customer_phone r, msg_payment_unverified oid)])
       (rider_threads w) (menu w) (zones w))
  /\ r_payment_status r' = "failed" /\ r_status r' = "pending" /\ frozen r r'.
Proof.
  intros H r'. split; [|repeat split].
  unfold verify_order. cbn [v_order_id v_verified]. run. rewrite H.
  rewrite (update_payment_present _ _ _ _ _ _ H). cbn [Py.truthy_str]. run.
  reflexivity.
Qed.

(** A pickup order, confirmed at creation, then rejected by the admin. *)
Lemma verify_order_rejects_witness :
  let o := Order "PH-0A1B2C3D" "923001234567" None [] 120 0 120 "cod"
             (Some "pending") (Some "confirmed") (Some "PICKUP") None None
             (Some "2026-01-05T10:00:00") None in
  let w := snd (persist_order_to_db o initial_world) in
  let r' := update_without_screenshot "failed" (row_of_order o) in
  verify_order (VerifyRequest (Some "PH-0A1B2C3D") false) "2026-01-05T10:30:00" w
  = (Ok (Response 200 [("status", JStr "failed")]),
     World (sessions w) (<["PH-0A1B2C3D" := r']> (orders w))
       (outbox w ++ [("923001234567", msg_payment_unverified "PH-0A1B2C3D")])
       (rider_threads w) (menu w) (zones w))
  /\ r_payment_status r' = "failed" /\ r_status r' = "pending"
  /\ frozen (row_of_order o) r'.
Proof.
  cbv zeta.
  apply (verify_order_rejects _ "PH-0A1B2C3D" "2026-01-05T10:30:00"
           (row_of_order
              (Order "PH-0A1B2C3D" "923001234567" None [] 120 0 120 "cod"
                 (Some "pending") (Some "confirmed") (Some "PICKUP") None None
                 (Some "2026-01-05T10:00:00") None))).
  vm_compute. reflexivity.
Defined.

(** X11: [verify_order] for an id that is not stored (or a request without an
    id): a 404 answer and no effect at all, whatever [verified] says. *)
Theorem verify_order_unknown_is_404 (w : world) (data : verify_request) (now : string) :
  (v_order_id data ≫= fun oid => orders w !! oid) = None ->
  verify_order data now w = (Ok (Response 404 [("error", JStr "order not found")]), w).
Proof. intros H. unfold mbind in H. unfold verify_order. run. now rewrite H. Qed.

Lemma verify_order_unknown_is_404_witness :
  verify_order (VerifyRequest (Some "PH-DEADBEEF") true) "2026-01-05T10:30:00" initial_world
  = (Ok (Response 404 [("error", JStr "order not found")]), initial_world).
Proof. apply verify_order_unknown_is_404. reflexivity. Defined.

Lemma path_join_nonempty (b : string) : Py.truthy_str (Some (path_join UPLOAD_DIR b)) = true.
Proof.
  unfold path_join, Py.startswith. destruct (String.prefix "/" b) eqn:E.
  - destruct b; [discriminate | reflexivity].
  - reflexivity.
Qed.

(** X12: [upload_screenshot] for a stored order: whatever state the order was in
    (paid and confirmed included), it now awaits verification with payment
    [pending]; the saved path is recorded, [verified_at] is stamped with the
    upload time, and the admin and the customer are told. *)
Theorem upload_screenshot_awaits_verification (w : world) (oid filename now : string)
    (phone : option string) (r : order_row) :
  orders w !! oid = Some r ->
  let path := path_join UPLOAD_DIR (oid +:+ "_" +:+ filename) in
  let r' := update_with_screenshot "pending" path now r in
  upload_screenshot (UploadForm (Some oid) phone (Some filename)) now w
  = (Ok (Response 200 [("status", JStr "uploaded")]),
     World (sessions w) (<[oid := r']> (orders w))
       (outbox w ++ [(admin_phone, msg_screenshot_uploaded oid (fmt_opt phone) path)]
                 ++ [(fmt_opt phone, msg_screenshot_thanks)])
       (rider_threads w) (menu w) (zones w))
  /\ r_status r' = "awaiting_verification" /\ r_payment_status r' = "pending"
  /\ r_verified_at r' = Some now /\ r_screenshot_path r' = Some path /\ frozen r r'.
Proof.
  intros H path r'. split; [|repeat split].
  unfold upload_screenshot. cbn [u_file u_order_id u_phone fmt_opt default from_option id].
  unfold mbind, M_bind, bind.
  rewrite (update_payment_present _ _ _ _ _ _ H), path_join_nonempty.
  run. cbn [default from_option id]. now rewrite <- app_assoc.
Qed.

(** A screenshot uploaded for an order that was already paid and confirmed. *)
Lemma upload_screenshot_awaits_verification_witness :
  let o := Order "PH-0A1B2C3D" "923001234567" None [] 120 80 200 "online_manual"
             (Some "paid") (Some "confirmed") (Some "12 City Center Rd") None None
             (Some "2026-01-05T10:00:00") None in
  let w := snd (persist_order_to_db o initial_world) in
  let path := path_join UPLOAD_DIR ("PH-0A1B2C3D" +:+ "_" +:+ "proof.png") in
  let r' := update_with_screenshot "pending" path "2026-01-05T11:00:00" (row_of_order o) in
  upload_screenshot (UploadForm (Some "PH-0A1B2C3D") (Some "923001234567") (Some "proof.png"))
    "2026-01-05T11:00:00" w
  = (Ok (Response 200 [("status", JStr "uploaded")]),
     World (sessions w) (<["PH-0A1B2C3D" := r']> (orders w))
       (outbox w
        ++ [(admin_phone,
             msg_screenshot_uploaded "PH-0A1B2C3D" (fmt_opt (Some "923001234567")) path)]
        ++ [(fmt_opt (Some "923001234567"), msg_screenshot_thanks)])
       (rider_threads w) (menu w) (zones w))
  /\ r_status r' = "awaiting_verification" /\ r_payment_status r' = "pending"
  /\ r_verified_at r' = Some "2026-01-05T11:00:00" /\ r_screenshot_path r' = Some path
  /\ frozen (row_of_order o) r'.
Proof.
  cbv zeta.
  apply (upload_screenshot_awaits_verification _ "PH-0A1B2C3D" "proof.png"
           "2026-01-05T11:00:00" (Some "923001234567")
           (row_of_order
              (Order "PH-0A1B2C3D" "923001234567" None [] 120 80 200 "online_manual"
                 (Some "paid") (Some "confirmed") (Some "12 City Center Rd") None None
                 (Some "2026-01-05T10:00:00") None))).
  vm_compute. reflexivity.
Defined.



End Endpoints.

(** ** Order creation over HTTP and the payment webhook *)

Section Creation.


Lemma sum_get_price_qty_app (xs ys : list item) :
  sum_get_price_qty (xs ++ ys) = sum_get_price_qty xs + sum_get_price_qty ys.
Proof.
  unfold sum_get_price_qty. induction xs as [|x xs IH]; simpl; [reflexivity|].
  rewrite IH. lia.
Qed.





(** X16: A request that lacks one of the three required fields is refused with
    a 400 that names the first missing field, and nothing happens. *)
Theorem http_create_order_missing_field (w : world) (data : create_request)
    (uid now : string) :
  c_customer_phone data = None \/ c_items data = None \/ c_payment_method data = None ->
  exists field,
    http_create_order data uid now w = (Ok (missing field), w)
    /\ field ∈ ["customer_phone"; "items"; "payment_method"].
Proof.
  intros H. unfold http_create_order.
  destruct (c_customer_phone data) as [phone|].
  - destruct (c_items data) as [items|].
    + destruct (c_payment_method data) as [method|].
      * now destruct H as [H|[H|H]].
      * exists "payment_method". split; [reflexivity | rewrite !elem_of_cons; tauto].
    + exists "items". split; [reflexivity | rewrite !elem_of_cons; tauto].
  - exists "customer_phone". split; [reflexivity | rewrite !elem_of_cons; tauto].
Qed.

Lemma http_create_order_missing_field_witness :
  exists field,
    http_create_order
      (CreateRequest (Some "923001234567") None (Some "cod") None None None None None)
      "0A1B2C3D" "2026-01-05T10:00:00" initial_world
    = (Ok (missing field), initial_world)
    /\ field ∈ ["customer_phone"; "items"; "payment_method"].
Proof.
  apply (http_create_order_missing_field initial_world
           (CreateRequest (Some "923001234567") None (Some "cod") None None None None None)).
  right. left. reflexivity.
Defined.

Lemma payment_webhook_paid_stored (w : world) (oid now : string) (r : order_row) :
  orders w !! oid = Some r ->
  payment_webhook (PaymentEvent (Some oid) (Some "paid")) now w
  = (Ok status_ok,
     World (sessions w) (<[oid := update_without_screenshot "paid" r]> (orders w))
       (outbox w ++ [(r_customer_phone r, msg_payment_received oid)])
       (rider_threads w
        ++ [RiderOrder oid (r_customer_phone r) (r_items_json r) (r_address r) (r_total r)])
       (menu w) (zones w)).
Proof.
  intros H. unfold payment_webhook, update_order_payment_status.
  cbn [Py.truthy_str e_status e_order_id]. rewrite bool_decide_eq_true_2 by reflexivity.
  unfold mbind at 1 2 3, M_bind, bind.
  rewrite (sql_update_present _ _ _ _ H). run.
  repeat (rewrite lookup_insert_eq; run). reflexivity.
Qed.

(** X18: A [paid] event about a stored order: the row becomes [paid] and
    [confirmed], the customer is told and the rider gets the stored items,
    address and total; [verified_at] and the other columns are untouched. *)
Theorem payment_webhook_confirms (w : world) (oid now : string) (r : order_row) :
  orders w !! oid = Some r ->
  let r' := update_without_screenshot "paid" r in
  payment_webhook (PaymentEvent (Some oid) (Some "paid")) now w
  = (Ok status_ok,
     World (sessions w) (<[oid := r']> (orders w))
       (outbox w ++ [(r_customer_phone r, msg_payment_received oid)])
       (rider_threads w
        ++ [RiderOrder oid (r_customer_phone r) (r_items_json r) (r_address r) (r_total r)])
       (menu w) (zones w))
  /\ r_payment_status r' = "paid" /\ r_status r' = "confirmed"
  /\ r_verified_at r' = r_verified_at r /\ frozen r r'.
Proof.
  intros H r'. split; [now apply payment_webhook_paid_stored | repeat split].
Qed.

Lemma payment_webhook_confirms_witness :
  let o := Order "PH-0A1B2C3D" "923001234567" None [] 120 80 200 "online_manual"
             (Some "pending") (Some "awaiting_payment") (Some "12 City Center Rd")
             None None (Some "2026-01-05T10:00:00") None in
  let w := snd (persist_order_to_db o initial_world) in
  let r := row_of_order o in
  let r' := update_without_screenshot "paid" r in
  payment_webhook (PaymentEvent (Some "PH-0A1B2C3D") (Some "paid")) "2026-01-05T10:20:00" w
  = (Ok status_ok,
     World (sessions w) (<["PH-0A1B2C3D" := r']> (orders w))
       (outbox w ++ [(r_customer_phone r, msg_payment_received "PH-0A1B2C3D")])
       (rider_threads w
        ++ [RiderOrder "PH-0A1B2C3D" (r_customer_phone r) (r_items_json r) (r_address r)
              (r_total r)])
       (menu w) (zones w))
  /\ r_payment_status r' = "paid" /\ r_status r' = "confirmed"
  /\ r_verified_at r' = r_verified_at r /\ frozen r r'.
Proof.
  cbv zeta.
  apply (payment_webhook_confirms _ "PH-0A1B2C3D" "2026-01-05T10:20:00"
           (row_of_order
              (Order "PH-0A1B2C3D" "923001234567" None [] 120 80 200 "online_manual"
                 (Some "pending") (Some "awaiting_payment") (Some "12 City Center Rd")
                 None None (Some "2026-01-05T10:00:00") None))).
  vm_compute. reflexivity.
Defined.



End Creation.

(** ** Relations kept by every step of a handler *)

Section Preserving.

Context (R : world -> world -> Prop).
Hypothesis R_refl : forall w, R w w.
Hypothesis R_trans : forall w1 w2 w3, R w1 w2 -> R w2 w3 -> R w1 w3.

Lemma preserving_ret {A : Type} (a : A) : preserving R (ret a).
Proof. intros w. apply R_refl. Qed.

Lemma preserving_mret {A : Type} (a : A) : preserving R (mret a : M A).
Proof. intros w. apply R_refl. Qed.

Lemma preserving_raise {A : Type} (e : exn) : preserving R (@raise A e).
Proof. intros w. apply R_refl. Qed.

Lemma preserving_lift {A : Type} (o : outcome A) : preserving R (lift o).
Proof. intros w. apply R_refl. Qed.

Lemma preserving_get_world : preserving R get_world.
Proof. intros w. apply R_refl. Qed.

Lemma preserving_modify (f : world -> world) :
  (forall w, R w (f w)) -> preserving R (modify f).
Proof. intros Hf w. apply Hf. Qed.

Lemma preserving_bind {A B : Type} (c : M A) (k : A -> M B) :
  preserving R c -> (forall a, preserving R (k a)) -> preserving R (c ≫= k).
Proof.
  intros Hc Hk w. unfold mbind, M_bind, bind. specialize (Hc w).
  destruct (c w) as [[a|e] w1]; simpl in *; [|exact Hc].
  eapply R_trans; [exact Hc | apply Hk].
Qed.

Lemma preserving_serve_all (rqs : list request) :
  (forall rq, preserving R (serve rq)) -> forall w, R w (serve_all rqs w).
Proof.
  intros Hs. induction rqs as [|rq rqs IH]; intros w; simpl; [apply R_refl|].
  eapply R_trans; [apply Hs | apply IH].
Qed.

End Preserving.

(** Walk through a handler; [special] is tried on each statement first and
    [prim] settles the side conditions of the primitive ones. *)
Ltac preserve_with special prim :=
  repeat first
    [ special
    | progress cbv zeta
    | apply preserving_ret; solve [prim]
    | apply preserving_mret; solve [prim]
    | apply preserving_raise; solve [prim]
    | apply preserving_lift; solve [prim]
    | apply preserving_get_world; solve [prim]
    | apply preserving_modify; solve [prim]
    | apply preserving_bind; [solve [prim] | | intros ?]
    | match goal with
      | |- preserving _ (match ?x with _ => _ end) => destruct x
      end ].

Ltac preserve prim := preserve_with fail prim.

(** ** Endpoints that only update never add or remove an order *)

Section OrderIds.

Lemma same_ids_refl (w : world) : same_ids w w.
Proof. reflexivity. Qed.

Lemma same_ids_trans (w1 w2 w3 : world) : same_ids w1 w2 -> same_ids w2 w3 -> same_ids w1 w3.
Proof. unfold same_ids. congruence. Qed.

Ltac ids_prim :=
  first [ exact same_ids_refl | exact same_ids_trans
        | intros ?; unfold same_ids; simpl; rewrite ?dom_alter_L; reflexivity ].

Ltac ids_endpoint :=
  unfold upload_screenshot, verify_order, payment_webhook, upload_delivery_charges,
    update_order_payment_status, sql_update, sql_select, send_whatsapp,
    start_notify_rider;
  preserve ids_prim.

Lemma ids_upload_screenshot (form : upload_form) (now : string) :
  preserving same_ids (upload_screenshot form now).
Proof. ids_endpoint. Qed.

Lemma ids_verify_order (data : verify_request) (now : string) :
  preserving same_ids (verify_order data now).
Proof. ids_endpoint. Qed.

Lemma ids_payment_webhook (data : payment_event) (now : string) :
  preserving same_ids (payment_webhook data now).
Proof. ids_endpoint. Qed.

Lemma ids_upload_delivery_charges (data : delivery_body) :
  preserving same_ids (upload_delivery_charges data).
Proof. ids_endpoint. Qed.

(** X19: Screenshot uploads, manual verification, payment events and zone
    uploads leave the set of stored order ids as it is: they neither create
    an order for an unknown id nor delete one. *)
Theorem updates_keep_order_ids (rq : request) (w : world) :
  match rq with
  | WhatsApp _ _ _ | CreateOrder _ _ _ => True
  | _ => dom (orders (snd (serve rq w))) = dom (orders w)
  end.
Proof.
  destruct rq; simpl; try exact I.
  - apply ids_upload_screenshot.
  - apply ids_verify_order.
  - apply ids_payment_webhook.
  - apply ids_upload_delivery_charges.
Qed.

End OrderIds.

(** ** Every cart entry carries a price *)

Section Carts.

Lemma carts_refl (w : world) : carts_stay_priced w w.
Proof. now intros H. Qed.

Lemma carts_trans (w1 w2 w3 : world) :
  carts_stay_priced w1 w2 -> carts_stay_priced w2 w3 -> carts_stay_priced w1 w3.
Proof. unfold carts_stay_priced. tauto. Qed.

Lemma carts_sessions_same (w w' : world) :
  sessions w' = sessions w -> carts_stay_priced w w'.
Proof. intros E H sender s cart. rewrite E. apply H. Qed.

Lemma carts_alter (f : session -> session) (sender : string) (w : world) :
  (forall s, s_cart (f s) = s_cart s) ->
  carts_stay_priced w (set_sessions (alter f sender) w).
Proof.
  intros Hf H k s cart. simpl. rewrite lookup_alter. case_decide; subst.
  - destruct (sessions w !! k) as [s0|] eqn:E; [|discriminate].
    intros [= <-]. rewrite Hf. now apply (H k).
  - apply H.
Qed.

Lemma carts_insert (dflt : session) (sender : string) (w : world) :
  (forall cart, s_cart dflt = Some cart -> Forall priced cart) ->
  carts_stay_priced w (set_sessions (insert sender dflt) w).
Proof.
  intros Hd H k s cart. simpl. rewrite lookup_insert. case_decide; subst.
  - intros [= <-]. apply Hd.
  - apply H.
Qed.

Lemma carts_delete (sender : string) (w : world) :
  carts_stay_priced w (set_sessions (delete sender) w).
Proof.
  intros H k s cart. simpl. rewrite lookup_delete. case_decide; [discriminate|].
  apply H.
Qed.

Lemma carts_alter_cart (cart : list item) (sender : string) (w : world) :
  Forall priced cart ->
  carts_stay_priced w (set_sessions (alter (with_cart cart) sender) w).
Proof.
  intros Hc H k s c. simpl. rewrite lookup_alter. case_decide; subst.
  - destruct (sessions w !! k) as [s0|]; [|discriminate].
    intros [= <-] [= <-]. exact Hc.
  - apply H.
Qed.

Ltac carts_prim :=
  first [ exact carts_refl | exact carts_trans
        | intros ?;
          first [ apply carts_sessions_same; reflexivity
                | apply carts_alter; intros ?; reflexivity
                | apply carts_insert; simpl; intros ? [= <-]; constructor
                | apply carts_insert; simpl; intros ?; discriminate
                | apply carts_delete ] ].

Lemma carts_setdefault (sender : string) :
  preserving carts_stay_priced (setdefault sender empty_session).
Proof. unfold setdefault. preserve carts_prim. Qed.

(** The only writer of a cart: the appended entry has its price, and so
    have the entries before it. *)
Lemma carts_handle_item (sender : string) (text : option string) :
  preserving carts_stay_priced (handle_item sender text).
Proof.
  intros w Hw. unfold handle_item. run.
  destruct text as [text|]; [|exact Hw]. run.
  destruct (match_menu_item (menu w) text) as [[[[it price] size]|]|e]; run;
    [| exact Hw | exact Hw].
  unfold setdefault. run.
  destruct (sessions w !! sender) as [s|] eqn:Es; run.
  - destruct (s_cart s) as [cart|] eqn:Ec; cbn [subscript]; run; [|exact Hw].
    unfold mutate. run.
    assert (carts_priced
              (World (alter (with_cart (cart ++ [Item (Some (name it)) (Some size)
                                                   (Some price) (Some 1)])) sender
                        (sessions w))
                 (orders w) (outbox w) (rider_threads w) (menu w) (zones w))) as Hw'.
    { refine (carts_alter_cart _ sender w _ Hw).
      apply Forall_app. split; [now apply (Hw sender s) | repeat constructor].
      now eexists. }
    destruct (sum_price_qty _) as [sub|e]; run; exact Hw'.
  - cbn [s_cart with_cart subscript]. run. unfold mutate. run.
    assert (carts_priced
              (World (alter (with_cart ([] ++ [Item (Some (name it)) (Some size)
                                                 (Some price) (Some 1)])) sender
                        (<[sender := with_cart [] empty_session]> (sessions w)))
                 (orders w) (outbox w) (rider_threads w) (menu w) (zones w))) as Hw'.
    { refine (carts_alter_cart _ sender
                (World (<[sender := with_cart [] empty_session]> (sessions w))
                   (orders w) (outbox w) (rider_threads w) (menu w) (zones w)) _ _).
      - repeat constructor. now eexists.
      - refine (carts_insert (with_cart [] empty_session) sender w _ Hw).
        simpl. intros ? [= <-]. constructor. }
    destruct (sum_price_qty _) as [sub|e]; run; exact Hw'.
Qed.

Lemma carts_route (sender : string) (text : option string) (uid now : string) :
  preserving carts_stay_priced (route sender text uid now).
Proof.
  unfold route, handle_checkout, handle_cod, handle_pickup, handle_address,
    handle_online, handle_track, persist_order_to_db, sql_select, send_whatsapp,
    start_notify_rider, mutate.
  preserve_with ltac:(first [apply carts_handle_item | apply carts_setdefault]) carts_prim.
Qed.

Lemma carts_serve (rq : request) : preserving carts_stay_priced (serve rq).
Proof.
  destruct rq; simpl.
  - unfold whatsapp_webhook, send_whatsapp, mutate.
    preserve_with ltac:(first [apply carts_route | apply carts_setdefault]) carts_prim.
  - unfold http_create_order, persist_order_to_db, send_whatsapp, start_notify_rider.
    preserve carts_prim.
  - unfold upload_screenshot, update_order_payment_status, sql_update, send_whatsapp.
    preserve carts_prim.
  - unfold verify_order, update_order_payment_status, sql_update, sql_select,
      send_whatsapp, start_notify_rider.
    preserve carts_prim.
  - unfold payment_webhook, update_order_payment_status, sql_update, sql_select,
      send_whatsapp, start_notify_rider.
    preserve carts_prim.
  - unfold upload_delivery_charges. preserve carts_prim.
Qed.


(** X20: In every state the process can reach from one in which all cart entries
    are priced, all cart entries are priced: the router only ever appends
    entries it has just priced from the catalog, and no other endpoint writes
    a cart. *)
Theorem carts_always_priced (rqs : list request) (w : world) :
  carts_priced w -> carts_priced (serve_all rqs w).
Proof.
  apply (preserving_serve_all carts_stay_priced carts_refl carts_trans rqs carts_serve).
Qed.

Lemma carts_always_priced_witness :
  carts_priced
    (serve_all [WhatsApp (text_message "923001234567" "fries") "0A1B2C3D" "2026-01-05T10:00:00";
                WhatsApp (text_message "923001234567" "pepsi") "0A1B2C3D" "2026-01-05T10:01:00"]
       initial_world).
Proof.
  apply carts_always_priced.
  (* no session yet *)
  vm_compute. intros sender s cart H. discriminate H.
Defined.

End Carts.

(** ** Conversation router: guidance, orders and exceptions *)

(** Evaluate the tests of the cascade whose arguments are literals. *)
Ltac decide_closed :=
  repeat
    (match goal with
     | |- context [Py.any_in ?ks ?s] =>
         let v := eval vm_compute in (Py.any_in ks s) in
         match v with true => idtac | false => idtac end;
         replace (Py.any_in ks s) with v by (vm_compute; reflexivity)
     | |- context [Py.contains ?k ?s] =>
         let v := eval vm_compute in (Py.contains k s) in
         match v with true => idtac | false => idtac end;
         replace (Py.contains k s) with v by (vm_compute; reflexivity)
     | |- context [String.eqb ?a ?b] =>
         let v := eval vm_compute in (String.eqb a b) in
         match v with true => idtac | false => idtac end;
         replace (String.eqb a b) with v by (vm_compute; reflexivity)
     | |- context [Py.startswith ?a ?b] =>
         let v := eval vm_compute in (Py.startswith a b) in
         match v with true => idtac | false => idtac end;
         replace (Py.startswith a b) with v by (vm_compute; reflexivity)
     end;
     cbn [orb andb]; cbv iota).

(** Reduce [route] on a text whose lower-cased form is given by [H]. *)
Ltac route_on text H :=
  unfold route, mbind at 1, M_bind, bind at 1, get_world;
  change (default "" (Some text)) with text; rewrite H; decide_closed.

Section RouterMore.

(** X21: Without a usable sender id ([from], [wa_id] and [contact] all missing or
    empty) every payload is refused with a 400 and nothing happens. *)
Theorem webhook_without_sender (p : payload) (uid now : string) (w : world) :
  Py.truthy_str (py_or (py_or (p_from p) (p_wa_id p)) (p_contact p)) = false ->
  whatsapp_webhook p uid now w = (Ok (Response 400 [("error", JStr "no sender id")]), w).
Proof.
  intros H. unfold whatsapp_webhook. rewrite H. cbn [negb].
  destruct (_ || _); [reflexivity|]. destruct (_ || _); reflexivity.
Qed.

Lemma webhook_without_sender_witness :
  whatsapp_webhook (Payload (Some "") None None (Some "text") (Some (TextStr "menu")) None None)
    "0A1B2C3D" "2026-01-05T10:00:00" initial_world
  = (Ok (Response 400 [("error", JStr "no sender id")]), initial_world).
Proof. apply webhook_without_sender. reflexivity. Defined.

Lemma route_checkout (sender text uid now : string) (w : world) :
  Py.lower text = "checkout" ->
  route sender (Some text) uid now w = handle_checkout sender w.
Proof. intros H. route_on text H. reflexivity. Qed.

Lemma route_cod (sender text uid now : string) (w : world) :
  Py.lower text = "cod" ->
  route sender (Some text) uid now w = handle_cod sender w.
Proof. intros H. route_on text H. reflexivity. Qed.

Lemma route_pickup_any_case (sender text uid now : string) (w : world) :
  Py.lower text = "pickup" ->
  route sender (Some text) uid now w = handle_pickup sender uid now w.
Proof. intros H. route_on text H. reflexivity. Qed.

Lemma route_online (sender text uid now : string) (w : world) :
  Py.lower text = "online" ->
  (sessions w !! sender) ≫= s_awaiting_address <> Some true ->
  route sender (Some text) uid now w = handle_online sender uid now w.
Proof.
  intros H Ha. route_on text H.
  rewrite bool_decide_eq_false_2 by exact Ha. reflexivity.
Qed.

Lemma webhook_ok (sender text uid now : string) (w w' : world) :
  sender <> "" ->
  route sender (Some text) uid now w = (Ok tt, w') ->
  whatsapp_webhook (text_message sender text) uid now w = (Ok status_ok, w').
Proof. intros Hs H. rewrite webhook_text_message by exact Hs. now rewrite H. Qed.

Lemma webhook_raise (sender text uid now : string) (w w' : world) (e : exn) :
  sender <> "" ->
  route sender (Some text) uid now w = (Raise e, w') ->
  whatsapp_webhook (text_message sender text) uid now w = (Raise e, w').
Proof. intros Hs H. rewrite webhook_text_message by exact Hs. now rewrite H. Qed.

(** X22: With an empty cart (no session, no cart yet, or an empty list) the four
    intents that need a cart, in any letter case, only send their guidance
    text: no order is created and the session is left as it was. *)
Theorem empty_cart_guides (w : world) (sender text uid now : string) :
  sender <> "" ->
  nonempty_cart (sessions w !! sender) = None ->
  let reply msg :=
    whatsapp_webhook (text_message sender text) uid now w
    = (Ok status_ok, set_outbox (fun l => l ++ [(sender, msg)]) w) in
  (Py.lower text = "checkout" -> reply msg_cart_empty_checkout)
  /\ (Py.lower text = "cod" -> reply msg_cart_empty_payment)
  /\ (Py.lower text = "pickup" -> reply msg_cart_empty_pickup)
  /\ (Py.lower text = "online" ->
      (sessions w !! sender) ≫= s_awaiting_address <> Some true ->
      reply msg_cart_empty_payment).
Proof.
  intros Hs Hc reply. subst reply. cbv beta. repeat split.
  - intros H. apply webhook_ok; [exact Hs|]. rewrite route_checkout by exact H.
    unfold handle_checkout. run. now rewrite Hc.
  - intros H. apply webhook_ok; [exact Hs|]. rewrite route_cod by exact H.
    unfold handle_cod. run. now rewrite Hc.
  - intros H. apply webhook_ok; [exact Hs|]. rewrite route_pickup_any_case by exact H.
    unfold handle_pickup. run. now rewrite Hc.
  - intros H Ha. apply webhook_ok; [exact Hs|]. rewrite route_online by assumption.
    unfold handle_online. run. now rewrite Hc.
Qed.

Lemma empty_cart_guides_witness :
  let w := initial_world in
  let sender := "923001234567" in
  let reply msg :=
    whatsapp_webhook (text_message sender "Checkout") "0A1B2C3D" "2026-01-05T10:00:00" w
    = (Ok status_ok, set_outbox (fun l => l ++ [(sender, msg)]) w) in
  (Py.lower "Checkout" = "checkout" -> reply msg_cart_empty_checkout)
  /\ (Py.lower "Checkout" = "cod" -> reply msg_cart_empty_payment)
  /\ (Py.lower "Checkout" = "pickup" -> reply msg_cart_empty_pickup)
  /\ (Py.lower "Checkout" = "online" ->
      (sessions w !! sender) ≫= s_awaiting_address <> Some true ->
      reply msg_cart_empty_payment).
Proof.
  cbv zeta. apply (empty_cart_guides initial_world "923001234567" "Checkout");
    [discriminate | reflexivity].
Defined.

(** X23: [pickup] with items in the cart, a cached subtotal and an unused order
    id: the order is stored with the cart as its items, the cached subtotal
    as subtotal and total, no delivery charge, [cod], [pending] and
    [confirmed]; the customer gets the confirmation, one rider thread is
    started and the whole session is dropped. *)
Theorem pickup_places_order (w : world) (sender text uid now : string)
    (sess : session) (i : item) (cart : list item) (subtotal : Z) :
  sender <> "" ->
  Py.lower text = "pickup" ->
  sessions w !! sender = Some sess ->
  s_cart sess = Some (i :: cart) ->
  s_subtotal sess = Some subtotal ->
  orders w !! make_order_id uid = None ->
  let oid := make_order_id uid in
  let row := Row sender None (i :: cart) subtotal 0 subtotal "cod" "pending" "confirmed"
               (Some "PICKUP") None None (Some now) None None in
  whatsapp_webhook (text_message sender text) uid now w
  = (Ok status_ok,
     World (delete sender (sessions w)) (<[oid := row]> (orders w))
       (outbox w ++ [(sender, msg_pickup_confirmed oid)])
       (rider_threads w ++ [RiderOrder oid sender (i :: cart) (Some "PICKUP") subtotal])
       (menu w) (zones w)).
Proof.
  intros Hs Ht Hw Hc Hsub Hfresh oid row. apply webhook_ok; [exact Hs|].
  rewrite route_pickup_any_case by exact Ht.
  unfold handle_pickup, mbind at 1, M_bind, bind at 1, get_world, nonempty_cart.
  rewrite Hw, Hc, Hsub. cbn [subscript]. unfold mbind at 1 2, M_bind, bind at 1 2, lift.
  rewrite persist_fresh by exact Hfresh. run. reflexivity.
Qed.

Lemma pickup_places_order_witness :
  let sender := "923001234567" in
  let w := snd (converse sender [Inbound "fries" "0A1B2C3D" "2026-01-05T10:00:00";
                                 Inbound "checkout" "0A1B2C3D" "2026-01-05T10:01:00"]
                  initial_world) in
  let i := Item (Some "Fries") (Some "OneSize") (Some 120) (Some 1) in
  let oid := make_order_id "0A1B2C3D" in
  let row := Row sender None [i] 120 0 120 "cod" "pending" "confirmed"
               (Some "PICKUP") None None (Some "2026-01-05T10:02:00") None None in
  whatsapp_webhook (text_message sender "PICKUP") "0A1B2C3D" "2026-01-05T10:02:00" w
  = (Ok status_ok,
     World (delete sender (sessions w)) (<[oid := row]> (orders w))
       (outbox w ++ [(sender, msg_pickup_confirmed oid)])
       (rider_threads w ++ [RiderOrder oid sender [i] (Some "PICKUP") 120])
       (menu w) (zones w)).
Proof.
  cbv zeta.
  apply (pickup_places_order _ "923001234567" "PICKUP" "0A1B2C3D" "2026-01-05T10:02:00"
           (with_subtotal 120
              (with_cart [Item (Some "Fries") (Some "OneSize") (Some 120) (Some 1)]
                 empty_session)));
    try discriminate; vm_compute; reflexivity.
Defined.

(** X24: Every text the catalog branch is written for (exactly [menu], or
    containing [show menu], in any letter case) is answered with the usage
    prompt of the first branch instead. *)
Theorem menu_requests_get_usage_prompt (sender text uid now : string) (w : world) :
  Py.lower text = "menu" \/ Py.contains "show menu" (Py.lower text) = true ->
  route sender (Some text) uid now w = send_whatsapp sender msg_usage_prompt w.
Proof.
  intros H. unfold route, mbind at 1, M_bind, bind at 1, get_world.
  change (default "" (Some text)) with text.
  destruct (Py.any_in order_keywords (Py.lower text)) eqn:E; [reflexivity|].
  apply menu_branch_unreachable in E. apply orb_false_iff in E as [E1 E2].
  destruct H as [H|H]; [|congruence].
  rewrite H in E1. discriminate.
Qed.

Lemma menu_requests_get_usage_prompt_witness :
  route "923001234567" (Some "Please SHOW MENU") "0A1B2C3D" "2026-01-05T10:00:00" initial_world
  = send_whatsapp "923001234567" msg_usage_prompt initial_world.
Proof.
  apply menu_requests_get_usage_prompt. right. vm_compute. reflexivity.
Defined.

End RouterMore.

(** ** When the router raises *)

Section RouterExceptions.















End RouterExceptions.

(** ** The two exceptions do occur *)

Section RouterRaises.

(** X26: [pickup], in any letter case, for a session with items in the cart but
    no cached subtotal raises [KeyError('subtotal')] before anything is
    sent or stored: the state is exactly as before. *)
Theorem pickup_before_checkout_raises (w : world) (sender text uid now : string)
    (sess : session) (i : item) (cart : list item) :
  sender <> "" ->
  Py.lower text = "pickup" ->
  sessions w !! sender = Some sess ->
  s_cart sess = Some (i :: cart) ->
  s_subtotal sess = None ->
  whatsapp_webhook (text_message sender text) uid now w = (Raise (KeyError "subtotal"), w).
Proof.
  intros Hs Ht Hw Hc Hsub. apply webhook_raise; [exact Hs|].
  rewrite route_pickup_any_case by exact Ht.
  unfold handle_pickup, nonempty_cart. run. now rewrite Hw, Hc, Hsub.
Qed.

Lemma pickup_before_checkout_raises_witness :
  let w := serve_all [WhatsApp (text_message "923001234567" "pepsi") "0A1B2C3D"
                        "2026-01-05T10:00:00"] initial_world in
  whatsapp_webhook (text_message "923001234567" "Pickup") "0A1B2C3D" "2026-01-05T10:01:00" w
  = (Raise (KeyError "subtotal"), w).
Proof.
  cbv zeta.
  apply (pickup_before_checkout_raises _ "923001234567" "Pickup" "0A1B2C3D"
           "2026-01-05T10:01:00"
           (with_cart [Item (Some "Pepsi 1.5L") (Some "OneSize") (Some 250) (Some 1)]
              empty_session)
           (Item (Some "Pepsi 1.5L") (Some "OneSize") (Some 250) (Some 1)) []);
    try discriminate; vm_compute; reflexivity.
Defined.

(** X27: An item the resolver finds, sent for a session that has no cart (one
    created by an address or a location message), raises [KeyError('cart')]:
    nothing is added, nothing is sent and the state is exactly as before. *)
Theorem item_without_cart_raises (w : world) (sender text uid now : string)
    (sess : session) (found : menu_item * Z * string) :
  sender <> "" ->
  Py.any_in order_keywords (Py.lower text) = false ->
  Py.any_in item_keywords (Py.lower text) = true ->
  sessions w !! sender = Some sess ->
  s_cart sess = None ->
  match_menu_item (menu w) text = Ok (Some found) ->
  whatsapp_webhook (text_message sender text) uid now w = (Raise (KeyError "cart"), w).
Proof.
  intros Hs H1 H3 Hw Hc Hf. apply webhook_raise; [exact Hs|].
  unfold route, mbind at 1, M_bind, bind at 1, get_world.
  change (default "" (Some text)) with text.
  rewrite H1, (menu_branch_unreachable _ H1), H3.
  unfold handle_item, setdefault. run. rewrite Hf. destruct found as [[it price] size].
  run. rewrite Hw. run. now rewrite Hc.
Qed.

Lemma item_without_cart_raises_witness :
  let w := serve_all [WhatsApp (text_message "923001234567" "address: 12 City Center Rd")
                        "0A1B2C3D" "2026-01-05T10:00:00"] initial_world in
  whatsapp_webhook (text_message "923001234567" "fries") "0A1B2C3D" "2026-01-05T10:01:00" w
  = (Raise (KeyError "cart"), w).
Proof.
  cbv zeta.
  apply (item_without_cart_raises _ "923001234567" "fries" "0A1B2C3D" "2026-01-05T10:01:00"
           (with_total 80 (with_delivery_charges 80 (with_awaiting_address false
              (with_address (Some "address: 12 City Center Rd") empty_session))))
           (fries, 120, "OneSize"));
    try discriminate; vm_compute; reflexivity.
Defined.

End RouterRaises.

(** ** Zone uploads *)

Section ZoneUploads.

(** X28: [upload_delivery_charges] refuses an empty object with a 400 and changes
    nothing.  Any other body is accepted and replaces the zone table by its
    [zones] entry; when it has none, or an empty one, the table is empty and
    every later fee calculation raises [IndexError]. *)
Theorem zone_upload_replaces_table (data : delivery_body) (w : world) :
  let res := upload_delivery_charges data w in
  (d_zones data = None /\ d_other_keys data = false ->
   res = (Ok (Response 400 [("error", JStr "missing body")]), w))
  /\ (is_Some (d_zones data) \/ d_other_keys data = true ->
      res = (Ok (Response 200 [("status", JStr "delivery saved")]),
             set_zones (default [] (d_zones data)) w)
      /\ (default [] (d_zones data) = [] ->
          forall address_text,
            calculate_delivery_charge (zones (snd res)) address_text = Raise IndexError)).
Proof.
  cbv zeta. unfold upload_delivery_charges. split.
  - intros [-> ->]. reflexivity.
  - intros H.
    assert (bool_decide (is_Some (d_zones data)) || d_other_keys data = true) as ->.
    { destruct H as [H| ->]; [|apply orb_true_r].
      now rewrite bool_decide_eq_true_2. }
    cbn [negb]. run. split; [reflexivity|].
    intros Hz address_text. cbn [snd zones set_zones]. now rewrite Hz.
Qed.

End ZoneUploads.

(** ** Witnesses for the stored-order invariants, and the accepted
    verification *)

Section StoredOrders.

(** An online order lives through an upload, a rejection and a payment. *)
Lemma stored_total_immutable_witness :
  let o := Order "PH-0A1B2C3D" "923001234567" None
             [Item (Some "Fries") (Some "OneSize") (Some 120) (Some 1)] 120 80 200
             "online_manual" (Some "pending") (Some "awaiting_payment")
             (Some "12 City Center Rd") None None (Some "2026-01-05T10:00:00") None in
  let w := snd (persist_order_to_db o initial_world) in
  let rqs := [UploadScreenshot (UploadForm (Some "PH-0A1B2C3D") None (Some "proof.png"))
                "2026-01-05T10:10:00";
              VerifyOrder (VerifyRequest (Some "PH-0A1B2C3D") false) "2026-01-05T10:20:00";
              PaymentWebhook (PaymentEvent (Some "PH-0A1B2C3D") (Some "paid"))
                "2026-01-05T10:30:00"] in
  exists r', orders (serve_all rqs w) !! "PH-0A1B2C3D" = Some r' /\ frozen (row_of_order o) r'.
Proof.
  cbv zeta. apply stored_total_immutable. vm_compute. reflexivity.
Defined.

(** A fresh process, then a pickup order placed through the router. *)
Lemma stored_total_adds_up_witness :
  let rqs :=
    [WhatsApp (text_message "923001234567" "fries") "0A1B2C3D" "2026-01-05T10:00:00";
     WhatsApp (text_message "923001234567" "checkout") "0A1B2C3D" "2026-01-05T10:01:00";
     WhatsApp (text_message "923001234567" "pickup") "0A1B2C3D" "2026-01-05T10:02:00"] in
  (forall oid r, orders initial_world !! oid = Some r -> consistent r)
  /\ (forall oid r, orders (serve_all rqs initial_world) !! oid = Some r -> consistent r).
Proof.
  cbv zeta.
  assert (forall oid r, orders initial_world !! oid = Some r -> consistent r) as H0.
  { intros oid r H. unfold initial_world in H. cbn [orders] in H.
    rewrite lookup_empty in H. discriminate. }
  split; [exact H0 | exact (stored_total_adds_up _ initial_world H0)].
Defined.

(** X9: [verify_order] with [verified = true] on a stored order: the row becomes
    [paid] and [confirmed] and keeps every other column, [verified_at]
    included; the customer is told and one rider thread is started with the
    order id, the customer's phone and the stored items, address and total. *)
Theorem verify_order_accepts (w : world) (oid now : string) (r : order_row) :
  orders w !! oid = Some r ->
  let r' := set_status "confirmed" (update_without_screenshot "paid" r) in
  verify_order (VerifyRequest (Some oid) true) now w
  = (Ok (Response 200 [("status", JStr "verified")]),
     World (sessions w) (<[oid := r']> (orders w))
       (outbox w ++ [(r_customer_phone r, msg_payment_verified oid)])
       (rider_threads w
        ++ [RiderOrder oid (r_customer_phone r) (r_items_json r) (r_address r) (r_total r)])
       (menu w) (zones w))
  /\ r_payment_status r' = "paid" /\ r_status r' = "confirmed"
  /\ r_verified_at r' = r_verified_at r /\ r_screenshot_path r' = r_screenshot_path r
  /\ frozen r r'.
Proof.
  intros H r'. split; [now apply verify_order_confirms | repeat split].
Qed.

Lemma verify_order_accepts_witness :
  let o := Order "PH-0A1B2C3D" "923001234567" None
             [Item (Some "Fries") (Some "OneSize") (Some 120) (Some 1)] 120 80 200
             "online_manual" (Some "pending") (Some "awaiting_payment")
             (Some "12 City Center Rd") None None (Some "2026-01-05T10:00:00") None in
  let w := snd (persist_order_to_db o initial_world) in
  let r := row_of_order o in
  let r' := set_status "confirmed" (update_without_screenshot "paid" r) in
  verify_order (VerifyRequest (Some "PH-0A1B2C3D") true) "2026-01-05T10:30:00" w
  = (Ok (Response 200 [("status", JStr "verified")]),
     World (sessions w) (<["PH-0A1B2C3D" := r']> (orders w))
       (outbox w ++ [(r_customer_phone r, msg_payment_verified "PH-0A1B2C3D")])
       (rider_threads w
        ++ [RiderOrder "PH-0A1B2C3D" (r_customer_phone r) (r_items_json r) (r_address r)
              (r_total r)])
       (menu w) (zones w))
  /\ r_payment_status r' = "paid" /\ r_status r' = "confirmed"
  /\ r_verified_at r' = r_verified_at r /\ r_screenshot_path r' = r_screenshot_path r
  /\ frozen r r'.
Proof.
  cbv zeta.
  apply (verify_order_accepts _ "PH-0A1B2C3D" "2026-01-05T10:30:00"
           (row_of_order
              (Order "PH-0A1B2C3D" "923001234567" None
                 [Item (Some "Fries") (Some "OneSize") (Some 120) (Some 1)] 120 80 200
                 "online_manual" (Some "pending") (Some "awaiting_payment")
                 (Some "12 City Center Rd") None None (Some "2026-01-05T10:00:00") None))).
  vm_compute. reflexivity.
Defined.

End StoredOrders.

(** ** Online orders *)

Section OnlineOrders.

(** X29: [online], in any letter case, with items in the cart, a resolved
    non-zero delivery fee and an unused order id: the order is stored with
    the cart as its items, the cached subtotal (or, without one, the sum of
    the prices), the session's fee and their sum as total, [online_manual],
    [pending] and [awaiting_payment]; the bank details are sent; no rider
    is notified; the session keeps its cart and records the total and the
    pending order id. *)
Theorem online_places_order (w : world) (sender text uid now : string)
    (sess : session) (i : item) (cart : list item) (cart_sum dc : Z) :
  sender <> "" ->
  Py.lower text = "online" ->
  sessions w !! sender = Some sess ->
  s_awaiting_address sess <> Some true ->
  s_cart sess = Some (i :: cart) ->
  sum_price (i :: cart) = Ok cart_sum ->
  s_delivery_charges sess = Some dc ->
  dc <> 0 ->
  orders w !! make_order_id uid = None ->
  let oid := make_order_id uid in
  let subtotal := default cart_sum (s_subtotal sess) in
  let total := subtotal + dc in
  let row := Row sender None (i :: cart) subtotal dc total "online_manual" "pending"
               "awaiting_payment" (s_address sess) None None (Some now) None None in
  whatsapp_webhook (text_message sender text) uid now w
  = (Ok status_ok,
     World (<[sender := with_pending_order_id oid (with_total total sess)]> (sessions w))
       (<[oid := row]> (orders w))
       (outbox w ++ [(sender, msg_bank total oid)])
       (rider_threads w) (menu w) (zones w)).
Proof.
  intros Hs Ht Hw Ha Hc Hsum Hdc Hnz Hfresh oid subtotal total row.
  apply webhook_ok; [exact Hs|].
  rewrite route_online; [|exact Ht | rewrite Hw; exact Ha].
  unfold handle_online, mbind at 1, M_bind, bind at 1, get_world, nonempty_cart.
  rewrite Hw, Hc. unfold mbind at 1, M_bind, bind at 1, lift. rewrite Hsum, Hdc.
  destruct (Z.eqb_spec dc 0) as [|_]; [contradiction|].
  unfold mutate, send_whatsapp. run.
  erewrite persist_fresh by exact Hfresh. run. subst oid subtotal total row.
  match goal with
  | |- context [alter ?f sender (alter ?g sender (sessions w))] =>
      replace (alter f sender (alter g sender (sessions w)))
        with (<[sender := f (g sess)]> (sessions w))
  end; [reflexivity|].
  apply map_eq. intros k. destruct (decide (sender = k)) as [<-|Hne].
  - now rewrite lookup_insert_eq, !lookup_alter_eq, Hw.
  - now rewrite lookup_insert_ne, !lookup_alter_ne by assumption.
Qed.

Lemma online_places_order_witness :
  let sender := "923001234567" in
  let w := serve_all
             [WhatsApp (text_message sender "fries") "0A1B2C3D" "2026-01-05T10:00:00";
              WhatsApp (text_message sender "checkout") "0A1B2C3D" "2026-01-05T10:01:00";
              WhatsApp (text_message sender "address: 12 City Center Rd") "0A1B2C3D"
                "2026-01-05T10:02:00"] initial_world in
  let i := Item (Some "Fries") (Some "OneSize") (Some 120) (Some 1) in
  let sess := with_total 200 (with_delivery_charges 80 (with_awaiting_address false
                (with_address (Some "address: 12 City Center Rd")
                   (with_subtotal 120 (with_cart [i] empty_session))))) in
  let oid := make_order_id "0A1B2C3D" in
  let row := Row sender None [i] 120 80 200 "online_manual" "pending"
               "awaiting_payment" (Some "address: 12 City Center Rd") None None
               (Some "2026-01-05T10:03:00") None None in
  whatsapp_webhook (text_message sender "Online") "0A1B2C3D" "2026-01-05T10:03:00" w
  = (Ok status_ok,
     World (<[sender := with_pending_order_id oid (with_total 200 sess)]> (sessions w))
       (<[oid := row]> (orders w))
       (outbox w ++ [(sender, msg_bank 200 oid)])
       (rider_threads w) (menu w) (zones w)).
Proof.
  cbv zeta.
  apply (online_places_order _ "923001234567" "Online" "0A1B2C3D" "2026-01-05T10:03:00"
           (with_total 200 (with_delivery_charges 80 (with_awaiting_address false
              (with_address (Some "address: 12 City Center Rd")
                 (with_subtotal 120
                    (with_cart [Item (Some "Fries") (Some "OneSize") (Some 120) (Some 1)]
                       empty_session))))))
           (Item (Some "Fries") (Some "OneSize") (Some 120) (Some 1)) [] 120 80);
    try discriminate; vm_compute; reflexivity.
Defined.

(** X30: A delivery fee of zero counts as no fee: with items in the cart and a
    session whose resolved fee is 0 (or missing), [online] only asks for the
    address again; no order is created and the session stays as it was. *)
Theorem online_with_zero_fee_asks_address (w : world) (sender text uid now : string)
    (sess : session) (i : item) (cart : list item) (cart_sum : Z) :
  sender <> "" ->
  Py.lower text = "online" ->
  sessions w !! sender = Some sess ->
  s_awaiting_address sess <> Some true ->
  s_cart sess = Some (i :: cart) ->
  sum_price (i :: cart) = Ok cart_sum ->
  s_delivery_charges sess = Some 0 \/ s_delivery_charges sess = None ->
  whatsapp_webhook (text_message sender text) uid now w
  = (Ok status_ok, set_outbox (fun l => l ++ [(sender, msg_address_first)]) w).
Proof.
  intros Hs Ht Hw Ha Hc Hsum Hdc. apply webhook_ok; [exact Hs|].
  rewrite route_online; [|exact Ht | rewrite Hw; exact Ha].
  unfold handle_online, mbind at 1, M_bind, bind at 1, get_world, nonempty_cart.
  rewrite Hw, Hc. unfold mbind at 1, M_bind, bind at 1, lift. rewrite Hsum.
  destruct Hdc as [-> | ->]; reflexivity.
Qed.

Lemma online_with_zero_fee_asks_address_witness :
  let sender := "923001234567" in
  let w := serve_all
             [UploadDelivery (DeliveryBody (Some [("City Center", 0)]) false);
              WhatsApp (text_message sender "fries") "0A1B2C3D" "2026-01-05T10:00:00";
              WhatsApp (text_message sender "address: 12 City Center Rd") "0A1B2C3D"
                "2026-01-05T10:02:00"] initial_world in
  whatsapp_webhook (text_message sender "online") "0A1B2C3D" "2026-01-05T10:03:00" w
  = (Ok status_ok, set_outbox (fun l => l ++ [(sender, msg_address_first)]) w).
Proof.
  cbv zeta.
  apply (online_with_zero_fee_asks_address _ "923001234567" "online" "0A1B2C3D"
           "2026-01-05T10:03:00"
           (with_total 120 (with_delivery_charges 0 (with_awaiting_address false
              (with_address (Some "address: 12 City Center Rd")
                 (with_cart [Item (Some "Fries") (Some "OneSize") (Some 120) (Some 1)]
                    empty_session)))))
           (Item (Some "Fries") (Some "OneSize") (Some 120) (Some 1)) [] 120);
    try discriminate; try (vm_compute; reflexivity).
  left. reflexivity.
Defined.

End OnlineOrders.
